(** * cog HTTP server: a shallow embedding of [python/cog/server/http.py]

    The module wraps one predictive model in a Flask application with four
    routes.  The embedding keeps the shape of the Python code: dynamically
    typed values are an inductive type, dictionaries are insertion-ordered
    association lists, and the handlers run in a state-and-exception monad
    whose state holds the outside world, the per-request cleanup list, the
    text written to [sys.stderr] and a trace of the calls made to the
    external capabilities.  What the module imports from [time], Flask,
    [cog.input] and [cog.model] is gathered in the class [Imports]. *)

From Stdlib Require Import List String Ascii ZArith DecimalString.
From Stdlib Require Import Bool Permutation Sorted.
Import ListNotations.
Open Scope string_scope.
Open Scope list_scope.

Set Implicit Arguments.
Set Warnings "-register-all".

(** ** Python dictionaries

    A [dict] keeps its keys in insertion order; assigning to an existing key
    replaces the value in place, assigning to a new key appends. *)

Module Dict.

Definition dict (V : Type) : Type := list (string * V).

Fixpoint get {V} (k : string) (d : dict V) : option V :=
  match d with
  | [] => None
  | (k', v) :: rest => if String.eqb k k' then Some v else get k rest
  end.

(** [k in d] *)
Definition mem {V} (k : string) (d : dict V) : bool :=
  match get k d with Some _ => true | None => false end.

(** [d[k] = v] *)
Fixpoint set {V} (k : string) (v : V) (d : dict V) : dict V :=
  match d with
  | [] => [(k, v)]
  | (k', v') :: rest =>
      if String.eqb k k' then (k, v) :: rest else (k', v') :: set k v rest
  end.

Definition keys {V} (d : dict V) : list string := map fst d.

(** [sorted(d.items())], as [json.dumps(..., sort_keys=True)] lists a
    dictionary: by key, entries of equal keys staying in their order. *)
Fixpoint insert_by_key {V} (kv : string * V) (d : dict V) : dict V :=
  match d with
  | [] => [kv]
  | kv' :: rest =>
      if String.leb (fst kv) (fst kv') then kv :: kv' :: rest
      else kv' :: insert_by_key kv rest
  end.

Fixpoint sort_keys {V} (d : dict V) : dict V :=
  match d with
  | [] => []
  | kv :: rest => insert_by_key kv (sort_keys rest)
  end.

End Dict.

Import Dict.

(** ** werkzeug's [MultiDict]

    [request.form] and [request.files] may hold several values per key;
    [items()] yields each key once, with its first value, in the order in
    which the keys first appeared. *)

Module MultiDict.

Definition t (V : Type) : Type := list (string * V).

Fixpoint items_from {V} (seen : list string) (md : t V) : list (string * V) :=
  match md with
  | [] => []
  | (k, v) :: rest =>
      if existsb (String.eqb k) seen then items_from seen rest
      else (k, v) :: items_from (k :: seen) rest
  end.

Definition items {V} (md : t V) : list (string * V) := items_from [] md.

End MultiDict.

(** ** werkzeug's [Headers]: an ordered list of entries whose keys compare
    without regard to case. *)

Module Headers.

Definition t : Type := list (string * string).

Definition lower_ascii (c : ascii) : ascii :=
  let n := nat_of_ascii c in
  if andb (Nat.leb 65 n) (Nat.leb n 90) then ascii_of_nat (n + 32) else c.

Fixpoint lower (s : string) : string :=
  match s with
  | EmptyString => EmptyString
  | String c rest => String (lower_ascii c) (lower rest)
  end.

Definition same_key (a b : string) : bool := String.eqb (lower a) (lower b).

Fixpoint get (k : string) (h : t) : option string :=
  match h with
  | [] => None
  | (k', v) :: rest => if same_key k k' then Some v else get k rest
  end.

Definition remove (k : string) (h : t) : t :=
  filter (fun kv => negb (same_key k (fst kv))) h.

(** [set]: the first entry of the key is replaced where it stands and the
    later ones are dropped; a new key is appended. *)
Fixpoint set (k v : string) (h : t) : t :=
  match h with
  | [] => [(k, v)]
  | (k', v') :: rest =>
      if same_key k k' then (k, v) :: remove k rest
      else (k', v') :: set k v rest
  end.

End Headers.

(** ** Python exceptions

    A [PyExc] is anything a [raise] can throw; [exc_str e] is [str(e)].
    [SystemExit] and [KeyboardInterrupt] derive from [BaseException] alone:
    they are no instances of [Exception], and an [except Exception] clause
    lets them pass. *)

Inductive ExcClass : Type :=
| Exception
| InputValidationError
| TypeError
| FileNotFoundError
| SystemExit
| KeyboardInterrupt.

Definition ExcClass_eqb (a b : ExcClass) : bool :=
  match a, b with
  | Exception, Exception
  | InputValidationError, InputValidationError
  | TypeError, TypeError
  | FileNotFoundError, FileNotFoundError
  | SystemExit, SystemExit
  | KeyboardInterrupt, KeyboardInterrupt => true
  | _, _ => false
  end.

Definition issubclass (c base : ExcClass) : bool :=
  match base with
  | Exception =>
      match c with
      | SystemExit | KeyboardInterrupt => false
      | _ => true
      end
  | _ => ExcClass_eqb c base
  end.

Record PyExc : Type := mkExc { exc_class : ExcClass; exc_str : string }.

(** [isinstance(e, cls)], the test an [except cls] clause performs. *)
Definition isinstance_exc (e : PyExc) (cls : ExcClass) : bool :=
  issubclass (exc_class e) cls.

Arguments isinstance_exc e cls : simpl never.

Inductive Result (A : Type) : Type :=
| Return (a : A)
| Raise (e : PyExc).

Arguments Return {A} a.
Arguments Raise {A} e.

(** ** The request state and the handler monad *)

Section Monad.

Variable W : Type.                                     (* the outside world *)

(** A cleanup callback takes no argument; it acts on the world and either
    returns or raises.  It holds no reference to the list it was registered
    in, so the list does not change while it is drained. *)
Definition Callback : Type := W -> option PyExc * W.

Inductive Event : Type :=
| EvSetup
| EvValidate
| EvRunModel
| EvCleanup (f : Callback) (raised : option PyExc).

Record State : Type := mkState {
  world : W;
  cleanup_functions : list Callback;   (* the list object of the request *)
  stderr : list string;                (* what was written to [sys.stderr] *)
  trace : list Event                   (* calls made to the capabilities *)
}.

Definition M (A : Type) : Type := State -> Result A * State.

Definition ret {A} (a : A) : M A := fun st => (Return a, st).

Definition raise {A} (e : PyExc) : M A := fun st => (Raise e, st).

Definition bind {A B} (m : M A) (k : A -> M B) : M B :=
  fun st =>
    match m st with
    | (Return a, st') => k a st'
    | (Raise e, st') => (Raise e, st')
    end.

Definition lift {A} (r : Result A) : M A := fun st => (r, st).

(** [try: body / finally: fin].  The [finally] suite always runs; when it
    completes, the outcome of [body] stands, and when it raises, its
    exception replaces that outcome. *)
Definition try_finally {A} (body : M A) (fin : M unit) : M A :=
  fun st =>
    let '(r, st1) := body st in
    match fin st1 with
    | (Return _, st2) => (r, st2)
    | (Raise e, st2) => (Raise e, st2)
    end.

(** [try: body / except cls as e: handler(e)] *)
Definition try_except {A} (body : M A) (cls : ExcClass)
           (handler : PyExc -> M A) : M A :=
  fun st =>
    match body st with
    | (Return a, st') => (Return a, st')
    | (Raise e, st') =>
        if isinstance_exc e cls then handler e st' else (Raise e, st')
    end.

End Monad.

Arguments EvSetup {W}.
Arguments EvValidate {W}.
Arguments EvRunModel {W}.

Notation "x <- m ;; k" := (bind m (fun x => k))
  (at level 61, m at next level, right associativity).
Notation "m ;;; k" := (bind m (fun _ => k))
  (at level 61, right associativity).

Section Server.

(** Python floats (the clock readings and their differences), the type
    objects a schema names, and the outside world. *)
Variables float PyType W : Type.

(** ** Python values *)

Inductive PyVal : Type :=
| VNone
| UNSPECIFIED                                  (* the sentinel of cog.input *)
| VBool (b : bool)
| VInt (z : Z)
| VFloat (f : float)
| VStr (s : string)
| VPath (p : string)                           (* pathlib.Path, by its text *)
| VFileStorage (filename : string) (content : string)
| VList (l : list PyVal)
| VDict (d : list (string * PyVal))
| VUUID (text : string)                        (* uuid.UUID, by its text *)
| VDatetime (http_date : string)         (* datetime, by its HTTP date text *)
| VDataclass (fields : list (string * PyVal))     (* a dataclass instance *)
| VObject (id : nat).    (* any other object: the JSON encoder has no rule *)

(** ** JSON documents *)

Inductive Json : Type :=
| JNull
| JBool (b : bool)
| JInt (z : Z)
| JFloat (f : float)
| JStr (s : string)
| JArr (l : list Json)
| JObj (d : list (string * Json)).

(** [json.dumps] as Flask's [jsonify] calls it: with [sort_keys], the
    application's default, and with Flask's encoder, which writes a UUID as
    its text, a datetime as its HTTP date and a dataclass instance as the
    dictionary of its fields.  An object the encoder has no rule for is a
    [TypeError] ([None] here). *)
Fixpoint dumps (v : PyVal) : option Json :=
  match v with
  | VNone => Some JNull
  | VBool b => Some (JBool b)
  | VInt z => Some (JInt z)
  | VFloat f => Some (JFloat f)
  | VStr s => Some (JStr s)
  | VList l =>
      option_map JArr
        ((fix go (l : list PyVal) : option (list Json) :=
            match l with
            | [] => Some []
            | x :: r =>
                match dumps x, go r with
                | Some j, Some js => Some (j :: js)
                | _, _ => None
                end
            end) l)
  | VDict d | VDataclass d =>
      option_map (fun js => JObj (Dict.sort_keys js))
        ((fix go (d : list (string * PyVal)) : option (list (string * Json)) :=
            match d with
            | [] => Some []
            | (k, x) :: r =>
                match dumps x, go r with
                | Some j, Some js => Some ((k, j) :: js)
                | _, _ => None
                end
            end) d)
  | VUUID text => Some (JStr text)
  | VDatetime http_date => Some (JStr http_date)
  | UNSPECIFIED | VPath _ | VFileStorage _ _ | VObject _ => None
  end.

(** [json.loads] *)
Fixpoint loads (j : Json) : PyVal :=
  match j with
  | JNull => VNone
  | JBool b => VBool b
  | JInt z => VInt z
  | JFloat f => VFloat f
  | JStr s => VStr s
  | JArr l => VList (map loads l)
  | JObj d => VDict (map (fun kv => (fst kv, loads (snd kv))) d)
  end.

(** ** Flask responses *)

Inductive Body : Type :=
| BText (s : string)
| BFile (content : string)
| BJson (j : Json).

Record Response : Type := mkResponse {
  status_code : Z;
  mimetype : string;
  headers : Headers.t;
  body : Body
}.

(** [resp.status_code = code] *)
Definition with_status (resp : Response) (code : Z) : Response :=
  mkResponse code (mimetype resp) (headers resp) (body resp).

(** [Response(text, mimetype=m)] *)
Definition Response_ (text : string) (m : string) : Response :=
  mkResponse 200 m [("Content-Type", m)] (BText text).

Definition jsonify (v : PyVal) : Result Response :=
  match dumps v with
  | Some j =>
      Return (mkResponse 200 "application/json"
                         [("Content-Type", "application/json")] (BJson j))
  | None => Raise (mkExc TypeError "Object is not JSON serializable")
  end.

(** ** The input schema and the model

    Modelled from the spec: the declaration of the per-field descriptor
    lives in [cog/input.py]; the handler reads its attributes [type], [help],
    [default], [min], [max] and [options].  [None] is Python's [None]; an
    absent default is the [UNSPECIFIED] sentinel. *)

Record InputSpec : Type := mkInputSpec {
  spec_type : PyType;
  spec_help : option string;
  spec_default : PyVal;
  spec_min : option PyVal;
  spec_max : option PyVal;
  spec_options : option (list PyVal)
}.

Record Model : Type := mkModel {
  setup : W -> Result unit * W;
  (** [predict._inputs], when the attribute exists *)
  predict_inputs : option (dict InputSpec)
}.

Record Request : Type := mkRequest {
  form : MultiDict.t string;
  files : MultiDict.t PyVal
}.

(** ** What the module imports

    [validate_and_convert_inputs] and [run_model] receive the request's
    cleanup list itself and may append to it before they return or raise:
    they hand back the list as they left it. *)

Class Imports : Type := {
  (** float subtraction and [str] of a float *)
  float_sub : float -> float -> float;
  float_str : float -> string;
  (** [str] of containers and opaque objects *)
  str_other : PyVal -> string;
  (** [time.time()] *)
  time_time : W -> float * W;
  (** the file system behind Flask's [send_file], and its MIME guess *)
  read_file : W -> string -> option string;
  guess_type : string -> string;
  (** [cog.input] *)
  get_type_name : PyType -> string;
  validate_and_convert_inputs :
    Model -> dict PyVal -> list (Callback W) -> W ->
    Result (dict PyVal) * list (Callback W) * W;
  (** [cog.model] *)
  run_model :
    Model -> dict PyVal -> list (Callback W) -> W ->
    Result PyVal * list (Callback W) * W
}.

Context {imports : Imports}.

Definition py_str (v : PyVal) : string :=
  match v with
  | VStr s => s
  | VNone => "None"
  | VBool true => "True"
  | VBool false => "False"
  | VInt z => NilZero.string_of_int (Z.to_int z)
  | VFloat f => float_str f
  | VPath p => p
  | VUUID text => text
  | _ => str_other v
  end.

(** [resp.headers[key] = value]: the value goes through [str]. *)
Definition headers_setitem (resp : Response) (key : string) (value : PyVal)
  : Response :=
  mkResponse (status_code resp) (mimetype resp)
             (Headers.set key (py_str value) (headers resp)) (body resp).

(** *** Primitive actions *)

Definition time_time_ : M W float :=
  fun st =>
    let '(t, w) := time_time (world st) in
    (Return t, mkState w (cleanup_functions st) (stderr st) (trace st)).

(** [cleanup_functions = []] *)
Definition new_cleanup_functions : M W unit :=
  fun st => (Return tt, mkState (world st) [] (stderr st) (trace st)).

Definition get_cleanup_functions : M W (list (Callback W)) :=
  fun st => (Return (cleanup_functions st), st).

(** [sys.stderr.write(text)] *)
Definition stderr_write (text : string) : M W unit :=
  fun st =>
    (Return tt,
     mkState (world st) (cleanup_functions st) (stderr st ++ [text]) (trace st)).

Definition call_setup (m : Model) : M W unit :=
  fun st =>
    let '(r, w) := setup m (world st) in
    (r, mkState w (cleanup_functions st) (stderr st) (trace st ++ [EvSetup])).

Definition call_validate_and_convert_inputs (m : Model) (raw : dict PyVal)
  : M W (dict PyVal) :=
  fun st =>
    let '(r, cfs, w) :=
      validate_and_convert_inputs m raw (cleanup_functions st) (world st) in
    (r, mkState w cfs (stderr st) (trace st ++ [EvValidate])).

Definition call_run_model (m : Model) (inputs : dict PyVal) : M W PyVal :=
  fun st =>
    let '(r, cfs, w) := run_model m inputs (cleanup_functions st) (world st) in
    (r, mkState w cfs (stderr st) (trace st ++ [EvRunModel])).

(** [cleanup_function()] *)
Definition call_cleanup (f : Callback W) : M W unit :=
  fun st =>
    let '(raised, w) := f (world st) in
    (match raised with None => Return tt | Some e => Raise e end,
     mkState w (cleanup_functions st) (stderr st)
             (trace st ++ [EvCleanup f raised])).

(** Flask's [send_file(path)] *)
Definition send_file (path : string) : M W Response :=
  fun st =>
    match read_file (world st) path with
    | Some content =>
        (Return (mkResponse 200 (guess_type path)
                            [("Content-Type", guess_type path)]
                            (BFile content)), st)
    | None => (Raise (mkExc FileNotFoundError path), st)
    end.

(** ** [_abort400] *)

Definition _abort400 (message : string) : Result Response :=
  match jsonify (VDict [("message", VStr message)]) with
  | Return resp => Return (with_status resp 400)
  | Raise e => Raise e
  end.

(** ** [class HTTPServer] *)

Variable model : Model.                                   (* [self.model] *)

(** *** [create_response] *)

Definition create_response (result : PyVal) (setup_time run_time : float)
  : M W Response :=
  resp <- match result with
          | VPath _ => send_file (py_str result)
          | VStr s => ret (Response_ s "text/plain")
          | _ => lift (jsonify result)
          end ;;
  let resp := headers_setitem resp "X-Setup-Time" (VFloat setup_time) in
  let resp := headers_setitem resp "X-Run-Time" (VFloat run_time) in
  ret resp.

(** *** [handle_request] *)

(** The first loop: every form field goes into [raw_inputs]. *)
Fixpoint collect_form (items : list (string * string)) (raw_inputs : dict PyVal)
  : dict PyVal :=
  match items with
  | [] => raw_inputs
  | (key, val) :: rest => collect_form rest (Dict.set key (VStr val) raw_inputs)
  end.

(** The second loop; [inl] is the early [return _abort400(...)]. *)
Fixpoint collect_files (items : list (string * PyVal)) (raw_inputs : dict PyVal)
  : Result Response + dict PyVal :=
  match items with
  | [] => inr raw_inputs
  | (key, val) :: rest =>
      if Dict.mem key raw_inputs then
        inl (_abort400
               ("Duplicated argument name in form and files: " ++ key))
      else collect_files rest (Dict.set key val raw_inputs)
  end.

Definition collect_inputs (request : Request)
  : Result Response + dict PyVal :=
  collect_files (MultiDict.items (files request))
                (collect_form (MultiDict.items (form request)) []).

(** The guarded loop of the [finally] suite. *)
Fixpoint cleanup_loop (fs : list (Callback W)) : M W unit :=
  match fs with
  | [] => ret tt
  | cleanup_function :: rest =>
      try_except (call_cleanup cleanup_function) Exception
        (fun e =>
           stderr_write ("Cleanup function caught error: " ++ exc_str e)) ;;;
      cleanup_loop rest
  end.

Definition run_cleanup : M W unit :=
  fs <- get_cleanup_functions ;; cleanup_loop fs.

(** The [try] suite. *)
Definition handle_request_try (request : Request)
           (setup_time start_time : float) : M W Response :=
  match collect_inputs request with
  | inl early => lift early
  | inr raw_inputs =>
      converted <-
        match predict_inputs model with
        | Some _ =>
            try_except
              (inputs <- call_validate_and_convert_inputs model raw_inputs ;;
               ret (inr inputs))
              InputValidationError
              (fun e => ret (inl (_abort400 (exc_str e))))
        | None => ret (inr raw_inputs)
        end ;;
      match converted with
      | inl early => lift early
      | inr inputs =>
          result <- call_run_model model inputs ;;
          now <- time_time_ ;;
          let run_time := float_sub now start_time in
          create_response result setup_time run_time
      end
  end.

Definition handle_request (setup_time : float) (request : Request)
  : M W Response :=
  start_time <- time_time_ ;;
  new_cleanup_functions ;;;
  try_finally (handle_request_try request setup_time start_time) run_cleanup.

(** *** [ping] *)

Definition ping : M W Response := ret (Response_ "PONG" "text/html").

(** *** [help] *)

Definition is_not_UNSPECIFIED (v : PyVal) : bool :=
  match v with UNSPECIFIED => false | _ => true end.

(** Truth value of a string: the empty string is false. *)
Definition str_bool (s : string) : bool := negb (String.eqb s "").

Definition help_arg (spec : InputSpec) : dict PyVal :=
  let arg := [("type", VStr (get_type_name (spec_type spec)))] in
  let arg :=
    match spec_help spec with
    | Some h => if str_bool h then Dict.set "help" (VStr h) arg else arg
    | None => arg
    end in
  let arg :=
    if is_not_UNSPECIFIED (spec_default spec)
    then Dict.set "default" (VStr (py_str (spec_default spec))) arg
    else arg in
  let arg :=
    match spec_min spec with
    | Some m => Dict.set "min" (VStr (py_str m)) arg
    | None => arg
    end in
  let arg :=
    match spec_max spec with
    | Some m => Dict.set "max" (VStr (py_str m)) arg
    | None => arg
    end in
  let arg :=
    match spec_options spec with
    | Some os =>
        Dict.set "options" (VList (map (fun o => VStr (py_str o)) os)) arg
    | None => arg
    end in
  arg.

(** The loop over [input_specs.items()]. *)
Fixpoint help_args (input_specs : list (string * InputSpec))
         (args : dict PyVal) : dict PyVal :=
  match input_specs with
  | [] => args
  | (name, spec) :: rest =>
      help_args rest (Dict.set name (VDict (help_arg spec)) args)
  end.

(** The dictionary handed to [jsonify]. *)
Definition help_document : PyVal :=
  let args :=
    match predict_inputs model with
    | Some input_specs => help_args input_specs []
    | None => []
    end in
  VDict [("arguments", VDict args)].

Definition help : M W Response := lift (jsonify help_document).

(** *** [make_app] and Flask's routing

    The routing model covers what this module itself decides: the four
    rules its decorators register, matched on the path exactly as
    registered, for the two methods the rules name.  What Flask and Werkzeug
    add on their own is not modelled: the [static] rule that
    [Flask(__name__)] registers, HEAD next to GET, the automatic answer to
    OPTIONS, the merging of doubled slashes and the redirects that go with
    it.  The theorems about routing therefore speak of GET and POST requests
    to the four registered paths, and of nothing else. *)

(** The methods the rules name. *)
Inductive Method : Type := GET | POST.

Inductive View : Type := view_handle_request | view_ping | view_help.

Record Flask : Type := mkFlask {
  app_setup_time : float;
  url_map : list (string * list Method * View)
}.

(** The rules the [app.route] decorators register, in the order of the
    source; a rule without [methods] is a GET rule. *)
Definition routes : list (string * list Method * View) :=
  [("/predict", [POST], view_handle_request);
   ("/infer", [POST], view_handle_request);
   ("/ping", [GET], view_ping);
   ("/help", [GET], view_help)].

Definition make_app : M W Flask :=
  start_time <- time_time_ ;;
  call_setup model ;;;
  now <- time_time_ ;;
  let setup_time := float_sub now start_time in
  ret (mkFlask setup_time routes).

Definition Method_eqb (a b : Method) : bool :=
  match a, b with
  | GET, GET | POST, POST => true
  | _, _ => false
  end.

(** The first rule with this very path and this method. *)
Fixpoint match_rule (rules : list (string * list Method * View))
         (method : Method) (path : string) : option View :=
  match rules with
  | [] => None
  | (rule, methods, view) :: rest =>
      if andb (String.eqb rule path) (existsb (Method_eqb method) methods)
      then Some view
      else match_rule rest method path
  end.

Definition error_response (code : Z) (text : string) : Response :=
  mkResponse code "text/html" [("Content-Type", "text/html")] (BText text).

(** Flask's dispatch on a registered path: the view of the matching rule,
    405 when the path has a rule but none for the method.  The last branch
    (no rule has the path) is the 404 of a path that Werkzeug's own
    matching does not lead to a rule either. *)
Definition dispatch_request (app : Flask) (method : Method) (path : string)
           (request : Request) : M W Response :=
  match match_rule (url_map app) method path with
  | Some view_handle_request => handle_request (app_setup_time app) request
  | Some view_ping => ping
  | Some view_help => help
  | None =>
      if existsb (fun r => String.eqb (fst (fst r)) path) (url_map app)
      then ret (error_response 405 "Method Not Allowed")
      else ret (error_response 404 "Not Found")
  end.

End Server.

Arguments VNone {float}.
Arguments UNSPECIFIED {float}.
Arguments VBool {float} b.
Arguments VInt {float} z.
Arguments VFloat {float} f.
Arguments VStr {float} s.
Arguments VPath {float} p.
Arguments VFileStorage {float} filename content.
Arguments VList {float} l.
Arguments VDict {float} d.
Arguments VUUID {float} text.
Arguments VDatetime {float} http_date.
Arguments VDataclass {float} fields.
Arguments VObject {float} id.
Arguments JNull {float}.
Arguments JBool {float} b.
Arguments JInt {float} z.
Arguments JFloat {float} f.
Arguments JStr {float} s.
Arguments JArr {float} l.
Arguments JObj {float} d.
Arguments BText {float} s.
Arguments BFile {float} content.
Arguments BJson {float} j.
Arguments time_time_ {float PyType W imports} _.
Arguments new_cleanup_functions {W} _.
Arguments get_cleanup_functions {W} _.
Arguments run_cleanup {W} _.
Arguments ping {float W} _.
Arguments dumps {float} v.
Arguments loads {float} j.
Arguments Response_ {float} text m.
Arguments _abort400 {float} message.
Arguments error_response {float} code text.

(** ** What a drained cleanup list leaves behind

    [drain fs w] calls the callbacks of [fs] one after the other, each on the
    world its predecessor left, and records for each what it did.  It stops
    after a callback that raises what [except Exception] does not catch. *)

Section Drain.

Variable W : Type.

(** The exception of a raise that [except Exception] lets pass. *)
Definition uncaught (raised : option PyExc) : option PyExc :=
  match raised with
  | Some e => if isinstance_exc e Exception then None else Some e
  | None => None
  end.

Fixpoint drain (fs : list (Callback W)) (w : W)
  : list (Callback W * option PyExc) * W :=
  match fs with
  | [] => ([], w)
  | f :: rest =>
      let '(raised, w1) := f w in
      match uncaught raised with
      | Some _ => ([(f, raised)], w1)
      | None =>
          let '(runs, w2) := drain rest w1 in
          ((f, raised) :: runs, w2)
      end
  end.

(** The exception that ended the loop early, if one did. *)
Fixpoint escaped (runs : list (Callback W * option PyExc)) : option PyExc :=
  match runs with
  | [] => None
  | (_, raised) :: rest =>
      match uncaught raised with
      | Some e => Some e
      | None => escaped rest
      end
  end.

(** What a [try] suite with outcome [outcome] ends in once the [finally]
    suite has made the runs [runs]: an exception that escaped the loop
    replaces the outcome. *)
Definition after_cleanup {A} (outcome : Result A)
           (runs : list (Callback W * option PyExc)) : Result A :=
  match escaped runs with
  | Some e => Raise e
  | None => outcome
  end.

Definition cleanup_event (run : Callback W * option PyExc) : Event W :=
  EvCleanup (fst run) (snd run).

(** The lines the guarded loop writes for the callbacks whose exception it
    caught. *)
Fixpoint caught_messages (runs : list (Callback W * option PyExc))
  : list string :=
  match runs with
  | [] => []
  | (_, Some e) :: rest =>
      if isinstance_exc e Exception
      then ("Cleanup function caught error: " ++ exc_str e)%string
             :: caught_messages rest
      else caught_messages rest
  | (_, None) :: rest => caught_messages rest
  end.

(** How a request ends whose [try] suite had the outcome [outcome], added
    the events [evs] to the trace and left the cleanup list [cfs] and the
    world [w]: [final] is what the handler hands back.  The callbacks are
    called from the front of the list, each at most once; the lines of the
    caught exceptions go to [stderr]; and when nothing escaped the loop,
    every callback was called and the outcome stands. *)
Definition request_ends {A} (st : State W) (final : Result A * State W)
           (outcome : Result A) (evs : list (Event W))
           (cfs : list (Callback W)) (w : W) : Prop :=
  let runs := fst (drain cfs w) in
  final =
    (after_cleanup outcome runs,
     mkState (snd (drain cfs w)) cfs
             (stderr st ++ caught_messages runs)
             (trace st ++ evs ++ map cleanup_event runs)) /\
  (exists rest, cfs = map fst runs ++ rest) /\
  (escaped runs = None -> map fst runs = cfs /\ fst final = outcome).

(** The events the [try] suite of [handle_request] can add to the trace. *)
Definition body_event (ev : Event W) : bool :=
  match ev with
  | EvValidate | EvRunModel => true
  | _ => false
  end.

Definition is_EvRunModel (ev : Event W) : bool :=
  match ev with
  | EvRunModel => true
  | _ => false
  end.

End Drain.

Arguments cleanup_event {W} run.
Arguments escaped {W} runs.
Arguments after_cleanup {W A} outcome runs.
Arguments request_ends {W A} st final outcome evs cfs w.
Arguments body_event {W} ev.
Arguments is_EvRunModel {W} ev.

(** ** Observations on results and responses *)

(** [isinstance(result, Path)] *)
Definition isinstance_Path {float} (result : PyVal float) : bool :=
  match result with
  | VPath _ => true
  | _ => false
  end.

(** The response streams a file. *)
Definition is_file_body {float} (resp : Response float) : bool :=
  match body resp with
  | BFile _ => true
  | _ => false
  end.

(** The [help] text a field shows: the declared text unless it is absent or
    empty. *)
Definition shown_help (h : option string) : option string :=
  match h with
  | Some text => if String.eqb text "" then None else Some text
  | None => None
  end.

(** [json.dumps] accepts the value. *)
Definition serializable {float} (v : PyVal float) : Prop := dumps v <> None.

(** One entry of the [arguments] dictionary of the help document. *)
Definition help_entry {float PyType W} {imports : Imports float PyType W}
           (item : string * InputSpec float PyType) : string * PyVal float :=
  (fst item, VDict (help_arg (snd item))).

(** The entry as [jsonify] writes it: its keys sorted. *)
Definition served_entry {float PyType W} {imports : Imports float PyType W}
           (item : string * InputSpec float PyType) : string * PyVal float :=
  (fst item, VDict (Dict.sort_keys (help_arg (snd item)))).

(** A string, or a list of strings. *)
Definition is_text {float} (v : PyVal float) : bool :=
  match v with
  | VStr _ => true
  | VList l =>
      forallb (fun x => match x with VStr _ => true | _ => false end) l
  | _ => false
  end.

(** The keys the served entry of a field has: those of the six the field
    calls for, in the sorted order [jsonify] writes them. *)
Definition served_entry_keys {float PyType} (spec : InputSpec float PyType)
  : list string :=
  (if is_not_UNSPECIFIED (spec_default spec) then ["default"] else [])
    ++ (match shown_help (spec_help spec) with Some _ => ["help"] | None => [] end)
    ++ (match spec_max spec with Some _ => ["max"] | None => [] end)
    ++ (match spec_min spec with Some _ => ["min"] | None => [] end)
    ++ (match spec_options spec with Some _ => ["options"] | None => [] end)
    ++ ["type"].

(** ** JSON-native values and Python's equality on them *)

(** The values JSON has a form of its own for. *)
Fixpoint json_native {float} (v : PyVal float) : bool :=
  match v with
  | VNone | VBool _ | VInt _ | VFloat _ | VStr _ => true
  | VList l => forallb json_native l
  | VDict d => forallb (fun kv => json_native (snd kv)) d
  | _ => false
  end.

(** The value with every dictionary listed by sorted key.  Two dictionaries
    are equal in Python when they hold the same values under the same keys,
    in whatever order: [canon v] holds what [v] holds. *)
Fixpoint canon {float} (v : PyVal float) : PyVal float :=
  match v with
  | VList l => VList (map canon l)
  | VDict d => VDict (Dict.sort_keys (map (fun kv => (fst kv, canon (snd kv))) d))
  | _ => v
  end.

(** Python's [==] between two values, as far as a response body goes:
    lists are compared element by element, dictionaries key by key, in
    whatever order the keys are listed. *)
Inductive py_eq {float} : PyVal float -> PyVal float -> Prop :=
| py_eq_refl v : py_eq v v
| py_eq_list l l' : Forall2 py_eq l l' -> py_eq (VList l) (VList l')
| py_eq_dict d d' :
    (forall k, Dict.get k d = None -> Dict.get k d' = None) ->
    (forall k v, Dict.get k d = Some v ->
                 exists v', Dict.get k d' = Some v' /\ py_eq v v') ->
    py_eq (VDict d) (VDict d').

(** ** A small model to run the handlers on

    Time is counted in whole ticks, the world is a clock and a disk, and the
    schema has the integer field [count] (1 to 10, no default) and the text
    field [title] (empty help text, empty default). *)

Module Demo.

Record World : Type := mkWorld {
  clock : Z;
  disk : list (string * string)
}.

Definition tick (w : World) : Z * World :=
  (clock w, mkWorld (clock w + 1) (disk w)).

(** [os.unlink(path)] as a cleanup callback. *)
Definition unlink (path : string) : Callback World :=
  fun w =>
    if Dict.mem path (disk w)
    then (None,
          mkWorld (clock w)
                  (filter (fun kv => negb (String.eqb path (fst kv))) (disk w)))
    else (Some (mkExc FileNotFoundError ("No such file: " ++ path)%string), w).

Definition count_spec : InputSpec Z string :=
  mkInputSpec "int" (Some "how many") UNSPECIFIED
              (Some (VInt 1)) (Some (VInt 10)) None.

Definition title_spec : InputSpec Z string :=
  mkInputSpec "str" (Some "") (VStr "") None None
              (Some [VStr "a"; VStr ""]).

Definition model : Model Z string World :=
  mkModel (fun w => (Return tt, w))
          (Some [("count", count_spec); ("title", title_spec)]).

(** A model whose [predict] carries no [_inputs]. *)
Definition bare_model : Model Z string World :=
  mkModel (fun w => (Return tt, w)) None.

(** Conversion writes two temporary files, registers three callbacks (the
    second names a file that is not there) and then accepts [count=5] and
    [count=7] only. *)
Definition convert (m : Model Z string World) (raw : dict (PyVal Z))
           (cfs : list (Callback World)) (w : World)
  : Result (dict (PyVal Z)) * list (Callback World) * World :=
  let w' := mkWorld (clock w)
                    (("/tmp/a", "A") :: ("/tmp/b", "B") :: disk w) in
  let cfs' := cfs ++ [unlink "/tmp/a"; unlink "/tmp/gone"; unlink "/tmp/b"] in
  match Dict.get "count" raw with
  | Some (VStr s) =>
      if String.eqb s "5" then (Return [("count", VInt 5)], cfs', w')
      else if String.eqb s "7" then (Return [("count", VInt 7)], cfs', w')
      else (Raise (mkExc InputValidationError "count: out of range"), cfs', w')
  | _ =>
      (Raise (mkExc InputValidationError "Missing expected argument: count"),
       cfs', w')
  end.

Definition predict (m : Model Z string World) (inputs : dict (PyVal Z))
           (cfs : list (Callback World)) (w : World)
  : Result (PyVal Z) * list (Callback World) * World :=
  match Dict.get "count" inputs with
  | Some (VInt n) =>
      if Z.eqb n 7 then (Raise (mkExc Exception "predict failed"), cfs, w)
      else (Return (VList [VInt n; VStr "done"]), cfs, w)
  | _ => (Raise (mkExc Exception "predict failed"), cfs, w)
  end.

#[global] Instance imports : Imports Z string World := {
  float_sub := Z.sub;
  float_str := fun z => NilZero.string_of_int (Z.to_int z);
  str_other := fun _ => "<object>";
  time_time := tick;
  read_file := fun w path => Dict.get path (disk w);
  guess_type := fun _ => "application/octet-stream";
  get_type_name := fun t => t;
  validate_and_convert_inputs := convert;
  run_model := predict
}.

Definition st0 : State World :=
  mkState (mkWorld 100 [("/out/cat.png", "PNG")]) [] [] [].

Definition req_ok : Request Z := mkRequest [("count", "5")] [].

Definition req_boom : Request Z := mkRequest [("count", "7")] [].

Definition req_missing : Request Z := mkRequest [("title", "x")] [].

Definition req_dup : Request Z :=
  mkRequest [("count", "5"); ("image", "x")]
            [("mask", VFileStorage "m.png" "M");
             ("image", VFileStorage "cat.png" "PNG")].

(** Two keys shared by form and files; [image] comes first among the
    files. *)
Definition req_dup2 : Request Z :=
  mkRequest [("count", "5"); ("image", "x")]
            [("mask", VFileStorage "m.png" "M");
             ("image", VFileStorage "cat.png" "PNG");
             ("count", VFileStorage "n.txt" "5")].

(** A form field sent twice, and a file. *)
Definition req_twice : Request Z :=
  mkRequest [("count", "5"); ("count", "9")]
            [("image", VFileStorage "cat.png" "PNG")].

(** Other imports: conversion fails with a [TypeError] after registering a
    callback, and the model hands its inputs back, registering a callback
    that removes the file it wrote. *)
Definition crash (m : Model Z string World) (raw : dict (PyVal Z))
           (cfs : list (Callback World)) (w : World)
  : Result (dict (PyVal Z)) * list (Callback World) * World :=
  (Raise (mkExc TypeError "unhashable upload"),
   cfs ++ [unlink "/tmp/a"],
   mkWorld (clock w) (("/tmp/a", "A") :: disk w)).

Definition echo (m : Model Z string World) (inputs : dict (PyVal Z))
           (cfs : list (Callback World)) (w : World)
  : Result (PyVal Z) * list (Callback World) * World :=
  (Return (VDict inputs),
   cfs ++ [unlink "/tmp/out"],
   mkWorld (clock w) (("/tmp/out", "O") :: disk w)).

Definition other_imports : Imports Z string World := {|
  float_sub := Z.sub;
  float_str := fun z => NilZero.string_of_int (Z.to_int z);
  str_other := fun _ => "<object>";
  time_time := tick;
  read_file := fun w path => Dict.get path (disk w);
  guess_type := fun _ => "application/octet-stream";
  get_type_name := fun t => t;
  validate_and_convert_inputs := crash;
  run_model := echo
|}.

(** The world after the first clock reading of a request on [st0], after
    conversion, and the callbacks conversion registers. *)
Definition w_read : World := mkWorld 101 [("/out/cat.png", "PNG")].

Definition w_converted : World :=
  mkWorld 101 [("/tmp/a", "A"); ("/tmp/b", "B"); ("/out/cat.png", "PNG")].

Definition callbacks : list (Callback World) :=
  [unlink "/tmp/a"; unlink "/tmp/gone"; unlink "/tmp/b"].

(** [sys.exit(1)] as a cleanup callback. *)
Definition sys_exit : Callback World :=
  fun w => (Some (mkExc SystemExit "1"), w).

(** Imports whose conversion writes the two temporary files and registers
    a callback that exits between the two that remove them. *)
Definition exit_convert (m : Model Z string World) (raw : dict (PyVal Z))
           (cfs : list (Callback World)) (w : World)
  : Result (dict (PyVal Z)) * list (Callback World) * World :=
  (Return [("count", VInt 5)],
   cfs ++ [unlink "/tmp/a"; sys_exit; unlink "/tmp/b"],
   mkWorld (clock w) (("/tmp/a", "A") :: ("/tmp/b", "B") :: disk w)).

Definition exit_imports : Imports Z string World := {|
  float_sub := Z.sub;
  float_str := fun z => NilZero.string_of_int (Z.to_int z);
  str_other := fun _ => "<object>";
  time_time := tick;
  read_file := fun w path => Dict.get path (disk w);
  guess_type := fun _ => "application/octet-stream";
  get_type_name := fun t => t;
  validate_and_convert_inputs := exit_convert;
  run_model := predict
|}.

(** The schema of [model], declared in the other order. *)
Definition model_title_first : Model Z string World :=
  mkModel (fun w => (Return tt, w))
          (Some [("title", title_spec); ("count", count_spec)]).

(** A model whose [setup] fails. *)
Definition broken_model : Model Z string World :=
  mkModel (fun w => (Raise (mkExc Exception "no weights"), w)) None.

End Demo.

(** * Properties *)

(** ** Dictionaries *)

Module DictFacts.

Lemma get_set_same {V} (k : string) (v : V) (d : dict V) :
  Dict.get k (Dict.set k v d) = Some v.
Proof.
  induction d as [| [k' v'] d IH]; simpl.
  - now rewrite String.eqb_refl.
  - destruct (String.eqb k k') eqn:E; simpl.
    + now rewrite String.eqb_refl.
    + now rewrite E.
Qed.

Lemma get_set_other {V} (k k' : string) (v : V) (d : dict V) :
  k <> k' -> Dict.get k (Dict.set k' v d) = Dict.get k d.
Proof.
  intros Hne. apply String.eqb_neq in Hne.
  induction d as [| [k0 v0] d IH]; simpl.
  - now rewrite Hne.
  - destruct (String.eqb k' k0) eqn:E; simpl.
    + apply String.eqb_eq in E. subst k0. now rewrite Hne.
    + now rewrite IH.
Qed.

Lemma mem_set_same {V} (k : string) (v : V) (d : dict V) :
  Dict.mem k (Dict.set k v d) = true.
Proof. unfold Dict.mem. now rewrite get_set_same. Qed.

Lemma mem_set_other {V} (k k' : string) (v : V) (d : dict V) :
  k <> k' -> Dict.mem k (Dict.set k' v d) = Dict.mem k d.
Proof. intros Hne. unfold Dict.mem. now rewrite get_set_other. Qed.

Lemma mem_In {V} (k : string) (d : dict V) :
  Dict.mem k d = true <-> In k (Dict.keys d).
Proof.
  unfold Dict.mem, Dict.keys.
  induction d as [| [k' v'] d IH]; simpl.
  - split; [discriminate | tauto].
  - destruct (String.eqb k k') eqn:E.
    + apply String.eqb_eq in E. subst. split; auto.
    + apply String.eqb_neq in E. rewrite IH. split; [auto |].
      intros [H | H]; [congruence | exact H].
Qed.

Lemma mem_false_not_In {V} (k : string) (d : dict V) :
  Dict.mem k d = false <-> ~ In k (Dict.keys d).
Proof.
  rewrite <- mem_In. destruct (Dict.mem k d); split; congruence.
Qed.

(** Assigning to a new key appends it. *)
Lemma set_new {V} (k : string) (v : V) (d : dict V) :
  Dict.mem k d = false -> Dict.set k v d = d ++ [(k, v)].
Proof.
  unfold Dict.mem.
  induction d as [| [k' v'] d IH]; simpl; intros H; [reflexivity |].
  destruct (String.eqb k k'); [discriminate |].
  now rewrite IH.
Qed.

(** What a lookup finds is an entry of the dictionary. *)
Lemma get_In {V} (k : string) (v : V) (d : dict V) :
  Dict.get k d = Some v -> In (k, v) d.
Proof.
  induction d as [| [k' v'] d IH]; simpl; [discriminate |].
  destruct (String.eqb k k') eqn:E.
  - apply String.eqb_eq in E. subst. intros H. injection H as <-. now left.
  - intros H. right. now apply IH.
Qed.

Lemma get_In_NoDup {V} (k : string) (v : V) (d : dict V) :
  NoDup (Dict.keys d) -> In (k, v) d -> Dict.get k d = Some v.
Proof.
  unfold Dict.keys.
  induction d as [| [k' v'] d IH]; simpl; intros Hnd Hin; [tauto |].
  inversion Hnd as [| ? ? Hnotin Hnd']; subst.
  destruct Hin as [Heq | Hin].
  - inversion Heq; subst. now rewrite String.eqb_refl.
  - destruct (String.eqb k k') eqn:E.
    + apply String.eqb_eq in E. subst k'.
      exfalso. apply Hnotin. apply (in_map fst) in Hin. exact Hin.
    + auto.
Qed.

Lemma leb_refl (s : string) : String.leb s s = true.
Proof. now destruct (String.leb_total s s). Qed.

(** Sorting by key changes no lookup. *)
Lemma get_insert_by_key {V} (k k' : string) (v : V) (d : dict V) :
  Dict.get k (Dict.insert_by_key (k', v) d) =
  if String.eqb k k' then Some v else Dict.get k d.
Proof.
  induction d as [| [k0 v0] d IH]; simpl; [reflexivity |].
  destruct (String.leb k' k0) eqn:Hle; simpl; [reflexivity |].
  rewrite IH.
  destruct (String.eqb k k0) eqn:E0; [| reflexivity].
  destruct (String.eqb k k') eqn:E; [| reflexivity].
  apply String.eqb_eq in E0, E. subst. now rewrite leb_refl in Hle.
Qed.

Lemma get_sort_keys {V} (k : string) (d : dict V) :
  Dict.get k (Dict.sort_keys d) = Dict.get k d.
Proof.
  induction d as [| [k' v'] d IH]; simpl; [reflexivity |].
  now rewrite get_insert_by_key, IH.
Qed.

Lemma insert_by_key_perm {V} (kv : string * V) (d : dict V) :
  Permutation (Dict.insert_by_key kv d) (kv :: d).
Proof.
  induction d as [| kv' d IH]; simpl; [reflexivity |].
  destruct (String.leb (fst kv) (fst kv')); [reflexivity |].
  rewrite IH. apply perm_swap.
Qed.

(** Sorting by key keeps the entries. *)
Lemma sort_keys_perm {V} (d : dict V) : Permutation (Dict.sort_keys d) d.
Proof.
  induction d as [| kv d IH]; simpl; [reflexivity |].
  rewrite insert_by_key_perm. now constructor.
Qed.

Lemma insert_by_key_sorted {V} (kv : string * V) (d : dict V) :
  Sorted (fun a b => String.leb a b = true) (Dict.keys d) ->
  Sorted (fun a b => String.leb a b = true)
         (Dict.keys (Dict.insert_by_key kv d)).
Proof.
  unfold Dict.keys.
  induction d as [| kv' d IH]; simpl; intros Hs.
  - repeat constructor.
  - destruct (String.leb (fst kv) (fst kv')) eqn:Hle; simpl.
    + constructor; [exact Hs | constructor; exact Hle].
    + inversion Hs as [| ? ? Hs' Hhd]; subst.
      constructor; [apply IH; exact Hs' |].
      destruct d as [| kv'' d]; simpl.
      * constructor. destruct (String.leb_total (fst kv) (fst kv'));
          congruence.
      * destruct (String.leb (fst kv) (fst kv'')); simpl.
        -- constructor. destruct (String.leb_total (fst kv) (fst kv'));
             congruence.
        -- inversion Hhd; subst. now constructor.
Qed.

(** The keys of a sorted dictionary ascend. *)
Lemma sort_keys_sorted {V} (d : dict V) :
  Sorted (fun a b => String.leb a b = true) (Dict.keys (Dict.sort_keys d)).
Proof.
  induction d as [| kv d IH]; simpl; [constructor |].
  now apply insert_by_key_sorted.
Qed.

Lemma insert_by_key_map {A B} (f : A -> B) (kv : string * A) (d : dict A) :
  Dict.insert_by_key (fst kv, f (snd kv))
                     (map (fun x => (fst x, f (snd x))) d) =
  map (fun x => (fst x, f (snd x))) (Dict.insert_by_key kv d).
Proof.
  induction d as [| kv' d IH]; simpl; [reflexivity |].
  destruct (String.leb (fst kv) (fst kv')); simpl; [reflexivity |].
  now rewrite IH.
Qed.

(** Sorting by key commutes with a change of the values. *)
Lemma sort_keys_map {A B} (f : A -> B) (d : dict A) :
  Dict.sort_keys (map (fun x => (fst x, f (snd x))) d) =
  map (fun x => (fst x, f (snd x))) (Dict.sort_keys d).
Proof.
  induction d as [| kv d IH]; simpl; [reflexivity |].
  now rewrite IH, insert_by_key_map.
Qed.

Lemma get_map_values {A B} (f : A -> B) (k : string) (d : dict A) :
  Dict.get k (map (fun kv => (fst kv, f (snd kv))) d) =
  option_map f (Dict.get k d).
Proof.
  induction d as [| [k' v'] d IH]; simpl; [reflexivity |].
  now destruct (String.eqb k k').
Qed.

End DictFacts.

(** ** [MultiDict.items] yields every key of the multi-dict, once *)

Module MultiDictFacts.

Lemma existsb_eqb_In (k : string) (seen : list string) :
  existsb (String.eqb k) seen = true <-> In k seen.
Proof.
  rewrite existsb_exists. split.
  - intros [x [Hin Heq]]. apply String.eqb_eq in Heq. now subst.
  - intros Hin. exists k. split; [exact Hin | apply String.eqb_refl].
Qed.

Lemma items_from_keys {V} (md : MultiDict.t V) (seen : list string) (k : string) :
  In k (map fst (MultiDict.items_from seen md)) <->
  In k (map fst md) /\ ~ In k seen.
Proof.
  revert seen. induction md as [| [k' v] md IH]; intros seen; simpl.
  - tauto.
  - destruct (existsb (String.eqb k') seen) eqn:E.
    + apply existsb_eqb_In in E. rewrite IH. split.
      * intros [H1 H2]. auto.
      * intros [[H1 | H1] H2]; [subst; contradiction | auto].
    + assert (Hn : ~ In k' seen).
      { intros H. apply existsb_eqb_In in H. congruence. }
      simpl. rewrite IH. simpl. split.
      * intros [H | [H1 H2]]; [subst; auto |].
        split; [auto | intros H; apply H2; auto].
      * intros [[H | H] H2]; [auto |].
        destruct (string_dec k' k) as [-> | Hne]; [auto |].
        right. split; [exact H | intros [H3 | H3]; [congruence | auto]].
Qed.

Lemma items_from_NoDup {V} (md : MultiDict.t V) (seen : list string) :
  NoDup (map fst (MultiDict.items_from seen md)).
Proof.
  revert seen. induction md as [| [k v] md IH]; intros seen; simpl.
  - constructor.
  - destruct (existsb (String.eqb k) seen); [apply IH |].
    simpl. constructor; [| apply IH].
    rewrite items_from_keys. intros [_ H]. apply H. now left.
Qed.

Lemma items_keys {V} (md : MultiDict.t V) (k : string) :
  In k (map fst (MultiDict.items md)) <-> In k (map fst md).
Proof. unfold MultiDict.items. rewrite items_from_keys. simpl. tauto. Qed.

Lemma items_NoDup {V} (md : MultiDict.t V) :
  NoDup (map fst (MultiDict.items md)).
Proof. apply items_from_NoDup. Qed.

End MultiDictFacts.

(** ** Headers *)

Module HeadersFacts.

Lemma same_key_refl (k : string) : Headers.same_key k k = true.
Proof. apply String.eqb_refl. Qed.

Lemma same_key_trans_false (a b c : string) :
  Headers.same_key a b = false -> Headers.same_key a c = true ->
  Headers.same_key b c = false.
Proof.
  unfold Headers.same_key. intros Hab Hac.
  apply String.eqb_eq in Hac. apply String.eqb_neq in Hab.
  apply String.eqb_neq. congruence.
Qed.

Lemma get_remove_other (k k' : string) (h : Headers.t) :
  Headers.same_key k k' = false ->
  Headers.get k (Headers.remove k' h) = Headers.get k h.
Proof.
  intros Hne. unfold Headers.remove.
  induction h as [| [k0 v0] h IH]; simpl; [reflexivity |].
  destruct (Headers.same_key k' k0) eqn:E; simpl.
  - destruct (Headers.same_key k k0) eqn:E0; [| exact IH].
    exfalso.
    pose proof (same_key_trans_false _ _ _ Hne E0) as H. congruence.
  - now rewrite IH.
Qed.

(** After [h[k] = v], looking [k] up gives [v]. *)
Lemma lookup_after_set (k v : string) (h : Headers.t) :
  Headers.get k (Headers.set k v h) = Some v.
Proof.
  induction h as [| [k' v'] h IH]; simpl.
  - now rewrite same_key_refl.
  - destruct (Headers.same_key k k') eqn:E; simpl.
    + now rewrite same_key_refl.
    + now rewrite E.
Qed.

(** Assigning another key leaves the lookup of [k] as it was. *)
Lemma lookup_after_set_other (k k' v : string) (h : Headers.t) :
  Headers.same_key k k' = false ->
  Headers.get k (Headers.set k' v h) = Headers.get k h.
Proof.
  intros Hne.
  induction h as [| [k0 v0] h IH]; simpl.
  - now rewrite Hne.
  - destruct (Headers.same_key k' k0) eqn:E; simpl.
    + rewrite Hne.
      destruct (Headers.same_key k k0) eqn:E0.
      * exfalso.
        pose proof (same_key_trans_false _ _ _ Hne E0) as H. congruence.
      * now apply get_remove_other.
    + now rewrite IH.
Qed.

End HeadersFacts.

Section Properties.

Context {float PyType W : Type} {imports : Imports float PyType W}.
Variable model : Model float PyType W.

(** ** JSON: what [dumps] accepts, [loads] gives back *)

Lemma PyVal_nested_ind (P : PyVal float -> Prop) :
  P VNone -> P UNSPECIFIED ->
  (forall b, P (VBool b)) -> (forall z, P (VInt z)) ->
  (forall f, P (VFloat f)) -> (forall s, P (VStr s)) ->
  (forall p, P (VPath p)) -> (forall n c, P (VFileStorage n c)) ->
  (forall l, Forall P l -> P (VList l)) ->
  (forall d, Forall (fun kv => P (snd kv)) d -> P (VDict d)) ->
  (forall text, P (VUUID text)) ->
  (forall date, P (VDatetime date)) ->
  (forall fields, P (VDataclass fields)) ->
  (forall id, P (VObject id)) ->
  forall v, P v.
Proof.
  intros HNone HUnspec HBool HInt HFloat HStr HPath HFile HList HDict
         HUuid HDate HData HObj.
  fix IH 1. intros [ | | b | z | f | s | p | n c | l | d | text | date | fields | id].
  - exact HNone.
  - exact HUnspec.
  - apply HBool.
  - apply HInt.
  - apply HFloat.
  - apply HStr.
  - apply HPath.
  - apply HFile.
  - apply HList. induction l as [| x l IHl]; constructor; [apply IH | exact IHl].
  - apply HDict. induction d as [| [k x] d IHd]; constructor;
      [apply IH | exact IHd].
  - apply HUuid.
  - apply HDate.
  - apply HData.
  - apply HObj.
Qed.

(** On a JSON-native value [dumps] succeeds, and [loads] gives the value
    back, its dictionaries listed by sorted key. *)
Lemma dumps_native (v : PyVal float) :
  json_native v = true ->
  exists j, dumps v = Some j /\ loads j = canon v.
Proof.
  induction v as [ | | b | z | f | s | p | n c | l IHl | d IHd | text | date | fields | id]
    using PyVal_nested_ind;
    simpl; intros Hn; try discriminate;
    try (eexists; split; reflexivity).
  - (* lists *)
    match goal with
    | |- exists j, option_map _ (?go l) = _ /\ _ => set (dumps_list := go)
    end.
    assert (Hl : exists js, dumps_list l = Some js /\
                            map loads js = map canon l).
    { induction IHl as [| x l Hx _ IH]; simpl in *.
      - exists []. split; reflexivity.
      - apply andb_prop in Hn. destruct Hn as [Hnx Hnl].
        destruct (Hx Hnx) as [jx [Ex Lx]].
        destruct (IH Hnl) as [jl [El Ll]].
        exists (jx :: jl). rewrite Ex, El. simpl. split; [reflexivity |].
        now rewrite Lx, Ll. }
    destruct Hl as [js [Ejs Ljs]]. exists (JArr js). rewrite Ejs. simpl.
    split; [reflexivity | now rewrite Ljs].
  - (* dictionaries *)
    match goal with
    | |- exists j, option_map _ (?go d) = _ /\ _ => set (dumps_dict := go)
    end.
    assert (Hd : exists js, dumps_dict d = Some js /\
                            map (fun kv => (fst kv, loads (snd kv))) js =
                            map (fun kv => (fst kv, canon (snd kv))) d).
    { induction IHd as [| [k x] d Hx _ IH]; simpl in *.
      - exists []. split; reflexivity.
      - apply andb_prop in Hn. destruct Hn as [Hnx Hnl].
        destruct (Hx Hnx) as [jx [Ex Lx]].
        destruct (IH Hnl) as [jl [El Ll]].
        exists ((k, jx) :: jl). rewrite Ex, El. simpl. split; [reflexivity |].
        now rewrite Lx, Ll. }
    destruct Hd as [js [Ejs Ljs]]. exists (JObj (Dict.sort_keys js)).
    rewrite Ejs. simpl. split; [reflexivity |].
    now rewrite <- DictFacts.sort_keys_map, Ljs.
Qed.

(** The canonical form of a value is equal to the value. *)
Lemma canon_py_eq (v : PyVal float) : py_eq (canon v) v.
Proof.
  induction v as [ | | b | z | f | s | p | n c | l IHl | d IHd
                   | text | date | fields | id]
    using PyVal_nested_ind;
    try apply py_eq_refl.
  - (* lists *)
    simpl. apply py_eq_list.
    induction IHl as [| x l Hx _ IH]; simpl; constructor; assumption.
  - (* dictionaries *)
    simpl. apply py_eq_dict; intros k;
      rewrite DictFacts.get_sort_keys, DictFacts.get_map_values.
    + destruct (Dict.get k d); [discriminate | reflexivity].
    + intros v Hget.
      destruct (Dict.get k d) as [v0 |] eqn:Hk; [| discriminate].
      injection Hget as <-. exists v0. split; [reflexivity |].
      apply DictFacts.get_In in Hk.
      rewrite Forall_forall in IHd. exact (IHd (k, v0) Hk).
Qed.

(** ** The [finally] suite *)

Lemma cleanup_loop_drains (fs : list (Callback W)) :
  forall st : State W,
    cleanup_loop fs st =
    (after_cleanup (Return tt) (fst (drain fs (world st))),
     mkState (snd (drain fs (world st)))
             (cleanup_functions st)
             (stderr st ++ caught_messages (fst (drain fs (world st))))
             (trace st ++ map cleanup_event (fst (drain fs (world st))))).
Proof.
  induction fs as [| f fs IH]; intros st.
  - simpl. unfold ret, after_cleanup. destruct st; simpl.
    now rewrite !app_nil_r.
  - simpl. unfold bind, try_except, call_cleanup.
    destruct (f (world st)) as [raised w1] eqn:Ef.
    destruct raised as [e |]; simpl.
    + destruct (isinstance_exc e Exception) eqn:Hcls.
      * unfold stderr_write. rewrite IH. simpl.
        destruct (drain fs w1) as [runs w2] eqn:Ed. simpl.
        unfold after_cleanup. simpl. rewrite Hcls. simpl.
        now rewrite <- !app_assoc.
      * unfold after_cleanup. simpl. rewrite Hcls. simpl.
        now rewrite app_nil_r.
    + rewrite IH. simpl.
      destruct (drain fs w1) as [runs w2] eqn:Ed. simpl.
      unfold after_cleanup. simpl. now rewrite <- !app_assoc.
Qed.

(** The callbacks called are a front part of the list ... *)
Lemma drain_prefix (fs : list (Callback W)) (w : W) :
  exists rest, fs = map fst (fst (drain fs w)) ++ rest.
Proof.
  revert w. induction fs as [| f fs IH]; intros w; simpl.
  - now exists [].
  - destruct (f w) as [raised w1]. destruct (uncaught raised).
    + now exists fs.
    + destruct (IH w1) as [rest Hrest].
      destruct (drain fs w1) as [runs w2]. simpl in *.
      exists rest. now rewrite <- Hrest.
Qed.

(** ... and the whole list when nothing escaped the loop. *)
Lemma drain_callbacks (fs : list (Callback W)) (w : W) :
  escaped (fst (drain fs w)) = None ->
  map fst (fst (drain fs w)) = fs.
Proof.
  revert w. induction fs as [| f fs IH]; intros w; simpl; [reflexivity |].
  destruct (f w) as [raised w1]. destruct (uncaught raised) eqn:Hu.
  - simpl. now rewrite Hu.
  - specialize (IH w1). destruct (drain fs w1) as [runs w2]. simpl in *.
    rewrite Hu. intros Hesc. now rewrite IH.
Qed.

Lemma cleanup_events_not_run_model (runs : list (Callback W * option PyExc)) :
  existsb is_EvRunModel (map cleanup_event runs) = false.
Proof. induction runs as [| run runs IH]; simpl; auto. Qed.

Lemma run_cleanup_drains (st : State W) :
  run_cleanup st =
  (after_cleanup (Return tt) (fst (drain (cleanup_functions st) (world st))),
   mkState (snd (drain (cleanup_functions st) (world st)))
           (cleanup_functions st)
           (stderr st
              ++ caught_messages (fst (drain (cleanup_functions st) (world st))))
           (trace st
              ++ map cleanup_event
                     (fst (drain (cleanup_functions st) (world st))))).
Proof.
  unfold run_cleanup, bind, get_cleanup_functions.
  apply cleanup_loop_drains.
Qed.

(** [try: body / finally: run_cleanup], whatever the body is. *)
Lemma try_finally_cleanup {A} (body : M W A) (st : State W) :
  try_finally body run_cleanup st =
  (after_cleanup (fst (body st))
                 (fst (drain (cleanup_functions (snd (body st)))
                             (world (snd (body st))))),
   mkState (snd (drain (cleanup_functions (snd (body st)))
                       (world (snd (body st)))))
           (cleanup_functions (snd (body st)))
           (stderr (snd (body st))
              ++ caught_messages
                   (fst (drain (cleanup_functions (snd (body st)))
                               (world (snd (body st))))))
           (trace (snd (body st))
              ++ map cleanup_event
                   (fst (drain (cleanup_functions (snd (body st)))
                               (world (snd (body st))))))).
Proof.
  unfold try_finally. destruct (body st) as [outcome st1]. simpl.
  rewrite run_cleanup_drains. unfold after_cleanup.
  now destruct (escaped (fst (drain (cleanup_functions st1) (world st1)))).
Qed.

(** ** [create_response] *)

Lemma create_response_state result setup_time run_time (st : State W) :
  snd (create_response result setup_time run_time st) = st.
Proof.
  unfold create_response, bind, send_file, lift, ret.
  destruct result; simpl; try (destruct (jsonify _); reflexivity);
    try reflexivity.
  destruct (read_file (world st) p); reflexivity.
Qed.

(** ** The [try] suite only ever calls conversion and the model *)

Lemma handle_request_try_trace request setup_time start_time (st : State W) :
  exists evs,
    trace (snd (handle_request_try model request setup_time start_time st))
    = trace st ++ evs /\
    forallb body_event evs = true /\
    stderr (snd (handle_request_try model request setup_time start_time st))
    = stderr st.
Proof.
  unfold handle_request_try.
  destruct (collect_inputs request) as [early | raw_inputs].
  { exists []. simpl. now rewrite app_nil_r. }
  assert (Hrun : forall inputs (st1 : State W) evs1,
             trace st1 = trace st ++ evs1 -> forallb body_event evs1 = true ->
             stderr st1 = stderr st ->
             exists evs,
               trace (snd ((result <- call_run_model model inputs ;;
                            now <- time_time_ ;;
                            create_response result setup_time
                              (float_sub now start_time)) st1))
               = trace st ++ evs /\
               forallb body_event evs = true /\
               stderr (snd ((result <- call_run_model model inputs ;;
                             now <- time_time_ ;;
                             create_response result setup_time
                               (float_sub now start_time)) st1))
               = stderr st).
  { intros inputs st1 evs1 Ht Hb Hs.
    exists (evs1 ++ [EvRunModel]).
    unfold bind, call_run_model, time_time_.
    destruct (run_model model inputs (cleanup_functions st1) (world st1))
      as [[r cfs] w].
    rewrite forallb_app, Hb. simpl.
    destruct r as [result | e]; simpl.
    - destruct (time_time w) as [now w1]. rewrite create_response_state.
      simpl. rewrite Ht, <- app_assoc. auto.
    - rewrite Ht, <- app_assoc. auto. }
  unfold bind at 1.
  destruct (predict_inputs model) as [specs |].
  - unfold try_except, bind, call_validate_and_convert_inputs, ret.
    destruct (validate_and_convert_inputs model raw_inputs
                (cleanup_functions st) (world st)) as [[r cfs] w].
    destruct r as [inputs | e].
    + simpl. apply (Hrun inputs _ [EvValidate]); reflexivity.
    + destruct (isinstance_exc e InputValidationError); simpl;
        exists [EvValidate]; auto.
  - unfold ret. apply (Hrun raw_inputs st []); simpl;
      [now rewrite app_nil_r | reflexivity | reflexivity].
Qed.

(** ** The request, step by step *)

Lemma handle_request_after_try
      (setup_time : float) (request : Request float) (st : State W)
      (t0 : float) (w0 : W)
      (outcome : Result (Response float)) (st1 : State W) :
  time_time (world st) = (t0, w0) ->
  handle_request_try model request setup_time t0
                     (mkState w0 [] (stderr st) (trace st)) = (outcome, st1) ->
  handle_request model setup_time request st =
  (after_cleanup outcome (fst (drain (cleanup_functions st1) (world st1))),
   mkState (snd (drain (cleanup_functions st1) (world st1)))
           (cleanup_functions st1)
           (stderr st1
              ++ caught_messages (fst (drain (cleanup_functions st1) (world st1))))
           (trace st1
              ++ map cleanup_event
                     (fst (drain (cleanup_functions st1) (world st1))))).
Proof.
  intros Htime Htry.
  unfold handle_request, bind, time_time_, new_cleanup_functions.
  rewrite Htime. cbn [world cleanup_functions stderr trace].
  rewrite try_finally_cleanup, Htry. reflexivity.
Qed.

Lemma create_response_eq (result : PyVal float) (setup_time run_time : float)
      (st : State W) :
  create_response result setup_time run_time st =
  (fst (create_response result setup_time run_time st), st).
Proof.
  rewrite <- (create_response_state result setup_time run_time st) at 3.
  now destruct (create_response result setup_time run_time st).
Qed.

Lemma create_response_status (result : PyVal float)
      (setup_time run_time : float) (st st' : State W)
      (resp : Response float) :
  create_response result setup_time run_time st = (Return resp, st') ->
  status_code resp = 200%Z.
Proof.
  unfold create_response, bind, send_file, lift, ret, jsonify.
  destruct result as [ | | b | z | f | s | p | n c | l | d | text | date | fields | id];
    try (intros H; injection H as <- _; reflexivity);
    try discriminate;
    try (match goal with
         | |- context [dumps ?v] =>
             destruct (dumps v);
             [intros H; injection H as <- _; reflexivity | discriminate]
         end).
  cbn [py_str]. destruct (read_file (world st) p); [| discriminate].
  intros H. injection H as <- _. reflexivity.
Qed.

Lemma create_response_headers (result : PyVal float)
      (setup_time run_time : float) (st st' : State W)
      (resp : Response float) :
  create_response result setup_time run_time st = (Return resp, st') ->
  Headers.get "X-Setup-Time" (headers resp) = Some (float_str setup_time) /\
  Headers.get "X-Run-Time" (headers resp) = Some (float_str run_time).
Proof.
  unfold create_response, bind, ret.
  match goal with
  | |- (let (_, _) := ?inner st in _) = _ -> _ =>
      destruct (inner st) as [[resp0 | e] st1]; [| discriminate]
  end.
  intros H. injection H as <- _. cbn [headers_setitem headers py_str].
  split.
  - rewrite HeadersFacts.lookup_after_set_other by reflexivity.
    apply HeadersFacts.lookup_after_set.
  - apply HeadersFacts.lookup_after_set.
Qed.

(** The [try] suite once conversion has succeeded, or was not needed. *)
Lemma run_model_step (inputs : dict (PyVal float))
      (setup_time start_time : float) (st1 : State W) :
  (result <- call_run_model model inputs ;;
   now <- time_time_ ;;
   create_response result setup_time (float_sub now start_time)) st1 =
  match run_model model inputs (cleanup_functions st1) (world st1) with
  | (Return result, cfs, w) =>
      (fst (create_response result setup_time
              (float_sub (fst (time_time w)) start_time)
              (mkState (snd (time_time w)) cfs (stderr st1)
                       (trace st1 ++ [EvRunModel]))),
       mkState (snd (time_time w)) cfs (stderr st1)
               (trace st1 ++ [EvRunModel]))
  | (Raise e, cfs, w) =>
      (Raise e, mkState w cfs (stderr st1) (trace st1 ++ [EvRunModel]))
  end.
Proof.
  unfold bind, call_run_model, time_time_.
  destruct (run_model model inputs (cleanup_functions st1) (world st1))
    as [[[result | e] cfs] w]; [| reflexivity].
  cbn [world cleanup_functions stderr trace].
  destruct (time_time w) as [now w']. cbn [fst snd].
  apply create_response_eq.
Qed.

(** The whole [try] suite, case by case. *)
Lemma handle_request_try_cases (request : Request float)
      (setup_time start_time : float) (st : State W) :
  handle_request_try model request setup_time start_time st =
  match collect_inputs request with
  | inl early => (early, st)
  | inr raw_inputs =>
      match predict_inputs model with
      | None =>
          (result <- call_run_model model raw_inputs ;;
           now <- time_time_ ;;
           create_response result setup_time (float_sub now start_time)) st
      | Some _ =>
          match validate_and_convert_inputs
                  model raw_inputs (cleanup_functions st) (world st) with
          | (Return inputs, cfs, w) =>
              (result <- call_run_model model inputs ;;
               now <- time_time_ ;;
               create_response result setup_time (float_sub now start_time))
                (mkState w cfs (stderr st) (trace st ++ [EvValidate]))
          | (Raise e, cfs, w) =>
              (if isinstance_exc e InputValidationError
               then _abort400 (exc_str e)
               else Raise e,
               mkState w cfs (stderr st) (trace st ++ [EvValidate]))
          end
      end
  end.
Proof.
  unfold handle_request_try.
  destruct (collect_inputs request) as [early | raw_inputs]; [reflexivity |].
  destruct (predict_inputs model) as [specs |]; [| reflexivity].
  unfold bind at 1.
  unfold try_except, bind at 1, call_validate_and_convert_inputs, ret.
  destruct (validate_and_convert_inputs model raw_inputs
              (cleanup_functions st) (world st)) as [[[inputs | e] cfs] w].
  - reflexivity.
  - destruct (isinstance_exc e InputValidationError); reflexivity.
Qed.

(** ** Cleanup *)

Lemma request_ends_intro {A} (st : State W) (outcome : Result A)
      (evs : list (Event W)) (cfs : list (Callback W)) (w : W) :
  request_ends st
    (after_cleanup outcome (fst (drain cfs w)),
     mkState (snd (drain cfs w)) cfs
             (stderr st ++ caught_messages (fst (drain cfs w)))
             (trace st ++ evs ++ map cleanup_event (fst (drain cfs w))))
    outcome evs cfs w.
Proof.
  unfold request_ends. cbv zeta. split; [reflexivity |].
  split; [apply drain_prefix |].
  intros Hesc. split; [now apply drain_callbacks |].
  cbn [fst]. unfold after_cleanup. now rewrite Hesc.
Qed.

(** C1, as the code has it.  Take a request that reaches conversion.  The
    list its [finally] suite drains is the very list conversion filled: as
    conversion left it when validation failed or conversion raised, and as
    [run_model], which is handed that list, gave it back when the model
    raised or a response was built.  In each of the three cases the
    callbacks are called from the front of that list, each at most once and
    on the world its predecessor left.  An instance of [Exception] raised
    by a callback puts one line on [sys.stderr] and stops nothing: when no
    callback raises anything else, every callback of the list is called
    exactly once, in list order, and the outcome of the [try] suite is the
    outcome of the request.  An exception that is no instance of
    [Exception] ends the loop and takes the place of that outcome. *)
Theorem cleanup_drains_registered_callbacks
        (setup_time : float) (request : Request float) (st : State W)
        (specs : dict (InputSpec float PyType))
        (raw : dict (PyVal float)) :
  collect_inputs request = inr raw ->
  predict_inputs model = Some specs ->
  let final := handle_request model setup_time request st in
  let '(t0, w0) := time_time (world st) in
  match validate_and_convert_inputs model raw [] w0 with
  | (Raise e, cfs, w1) =>
      request_ends st final
        (if isinstance_exc e InputValidationError
         then _abort400 (exc_str e) else Raise e)
        [EvValidate] cfs w1
  | (Return inputs, cfs1, w1) =>
      match run_model model inputs cfs1 w1 with
      | (Raise e, cfs, w2) =>
          request_ends st final (Raise e) [EvValidate; EvRunModel] cfs w2
      | (Return result, cfs, w2) =>
          let '(t1, w3) := time_time w2 in
          request_ends st final
            (fst (create_response result setup_time (float_sub t1 t0)
                    (mkState w3 cfs (stderr st)
                             (trace st ++ [EvValidate; EvRunModel]))))
            [EvValidate; EvRunModel] cfs w3
      end
  end.
Proof.
  intros Hraw Hspecs final. subst final.
  destruct (time_time (world st)) as [t0 w0] eqn:Ht0.
  pose proof (handle_request_try_cases request setup_time t0
                (mkState w0 [] (stderr st) (trace st))) as Htry.
  rewrite Hraw, Hspecs in Htry.
  cbn [world cleanup_functions stderr trace] in Htry.
  destruct (validate_and_convert_inputs model raw [] w0)
    as [[[inputs | e] cfs1] w1].
  - rewrite run_model_step in Htry.
    cbn [world cleanup_functions stderr trace] in Htry.
    destruct (run_model model inputs cfs1 w1) as [[[result | e] cfs] w2].
    + destruct (time_time w2) as [t1 w3]. cbn [fst snd] in Htry.
      rewrite (handle_request_after_try setup_time request st Ht0 Htry).
      cbn [world cleanup_functions stderr trace].
      rewrite <- !app_assoc.
      exact (request_ends_intro st _ [EvValidate; EvRunModel] cfs w3).
    + rewrite (handle_request_after_try setup_time request st Ht0 Htry).
      cbn [world cleanup_functions stderr trace].
      rewrite <- !app_assoc.
      exact (request_ends_intro st _ [EvValidate; EvRunModel] cfs w2).
  - rewrite (handle_request_after_try setup_time request st Ht0 Htry).
    cbn [world cleanup_functions stderr trace].
    rewrite <- !app_assoc.
    exact (request_ends_intro st _ [EvValidate] cfs1 w1).
Qed.

(** ** Input collection *)

Lemma abort400_returns (message : string) :
  _abort400 message =
  Return (mkResponse (float:=float) 400 "application/json"
            [("Content-Type", "application/json")]
            (BJson (JObj [("message", JStr message)]))).
Proof. reflexivity. Qed.

Lemma collect_form_mem (items : list (string * string)) :
  forall (d : dict (PyVal float)) (k : string),
    Dict.mem k (collect_form items d) = true <->
    In k (map fst items) \/ Dict.mem k d = true.
Proof.
  induction items as [| [key val] items IH]; intros d k; simpl.
  - tauto.
  - rewrite IH. destruct (string_dec k key) as [-> | Hne].
    + rewrite DictFacts.mem_set_same. tauto.
    + rewrite DictFacts.mem_set_other by exact Hne.
      split; intros [H | H]; auto. destruct H as [H | H]; [congruence | auto].
Qed.

(** The second loop stops at the first file key already in [raw_inputs]. *)
Lemma collect_files_duplicate (items : list (string * PyVal float)) :
  forall (d : dict (PyVal float)),
    NoDup (map fst items) ->
    (exists k, In k (map fst items) /\ Dict.mem k d = true) ->
    exists key,
      In key (map fst items) /\ Dict.mem key d = true /\
      collect_files items d =
      inl (_abort400
             ("Duplicated argument name in form and files: " ++ key)).
Proof.
  induction items as [| [key val] items IH]; intros d Hnd [k [Hin Hmem]];
    simpl in *; [contradiction |].
  inversion Hnd as [| ? ? Hnotin Hnd']; subst.
  destruct (Dict.mem key d) eqn:Hkey.
  - exists key. auto.
  - assert (Hk : In k (map fst items)).
    { destruct Hin as [-> | Hin]; [congruence | exact Hin]. }
    assert (Hne : k <> key) by (intros ->; contradiction).
    destruct (IH (Dict.set key val d) Hnd') as [key' [Hin' [Hmem' Heq]]].
    { exists k. split; [exact Hk |].
      now rewrite DictFacts.mem_set_other by exact Hne. }
    exists key'. repeat split; auto.
    rewrite DictFacts.mem_set_other in Hmem'; [exact Hmem' |].
    intros ->. contradiction.
Qed.

(** C2. When some key occurs both among the form fields and among the
    uploaded files, [handle_request] answers 400 with the JSON body
    [{"message": "Duplicated argument name in form and files: <key>"}] for a
    key that occurs in both; the state it leaves has the trace it found, so
    neither conversion nor the model was called, and the cleanup list is
    empty. *)
Theorem duplicate_key_rejected
        (setup_time : float) (request : Request float) (st : State W)
        (k : string) :
  In k (map fst (form request)) ->
  In k (map fst (files request)) ->
  exists key,
    In key (map fst (form request)) /\
    In key (map fst (files request)) /\
    handle_request model setup_time request st =
    (Return (mkResponse 400 "application/json"
               [("Content-Type", "application/json")]
               (BJson (JObj [("message",
                              JStr ("Duplicated argument name in form and files: "
                                      ++ key))]))),
     mkState (snd (time_time (world st))) [] (stderr st) (trace st)).
Proof.
  intros Hform Hfiles.
  destruct (collect_files_duplicate
              (MultiDict.items (files request))
              (collect_form (MultiDict.items (form request)) []))
    as [key [Hin [Hmem Heq]]].
  { apply MultiDictFacts.items_NoDup. }
  { exists k. split.
    - apply (proj2 (MultiDictFacts.items_keys _ _)), Hfiles.
    - apply collect_form_mem. left.
      apply (proj2 (MultiDictFacts.items_keys _ _)), Hform. }
  exists key. split; [| split].
  - apply collect_form_mem in Hmem. destruct Hmem as [H | H].
    + apply (proj1 (MultiDictFacts.items_keys _ _)), H.
    + discriminate.
  - apply (proj1 (MultiDictFacts.items_keys _ _)), Hin.
  - unfold handle_request, bind, time_time_, new_cleanup_functions,
      try_finally, handle_request_try, collect_inputs.
    destruct (time_time (world st)) as [start_time w0]. simpl.
    rewrite Heq. unfold lift. rewrite run_cleanup_drains. simpl.
    now rewrite !app_nil_r.
Qed.

(** ** Validation errors *)


(** ** The response builder *)

(** Sorting the keys of a dictionary changes none of its lookups: the
    canonical form of a dictionary holds, under every key, the canonical
    form of what the dictionary holds there. *)
Lemma canon_lookup (d : dict (PyVal float)) (k : string) :
  match canon (VDict d) with
  | VDict d' => Dict.get k d' = option_map canon (Dict.get k d)
  | _ => False
  end.
Proof.
  simpl. now rewrite DictFacts.get_sort_keys, DictFacts.get_map_values.
Qed.


(** C5. Every response [create_response] returns, by whichever branch,
    carries [X-Setup-Time] and [X-Run-Time], holding [str] of the two
    floats. *)
Theorem timing_headers_attached
        (result : PyVal float) (setup_time run_time : float)
        (st st' : State W) (resp : Response float) :
  create_response result setup_time run_time st = (Return resp, st') ->
  Headers.get "X-Setup-Time" (headers resp) = Some (float_str setup_time) /\
  Headers.get "X-Run-Time" (headers resp) = Some (float_str run_time).
Proof.
  unfold create_response, bind, ret.
  destruct (match result with
            | VPath _ => send_file (py_str result)
            | VStr s => fun st0 => (Return (Response_ s "text/plain"), st0)
            | _ => lift (jsonify result)
            end st) as [[resp0 | e] st1]; [| discriminate].
  intros H. injection H as <- _. cbn [headers_setitem headers py_str].
  split.
  - rewrite HeadersFacts.lookup_after_set_other by reflexivity.
    apply HeadersFacts.lookup_after_set.
  - apply HeadersFacts.lookup_after_set.
Qed.

(** C10. The branch is chosen by the type of the result alone.  A [str]
    result always gives the text/plain response with the string as body,
    whatever the disk holds under that name; and a response streams a file
    exactly when the result was a [Path]. *)
Theorem dispatch_on_type_alone
        (s : string) (setup_time run_time : float) (st : State W) :
  (exists resp,
     create_response (VStr s) setup_time run_time st = (Return resp, st) /\
     mimetype resp = "text/plain" /\ body resp = BText s /\
     is_file_body resp = false) /\
  (forall (st2 : State W),
     fst (create_response (VStr s) setup_time run_time st2) =
     fst (create_response (VStr s) setup_time run_time st)) /\
  (forall result : PyVal float,
     match create_response result setup_time run_time st with
     | (Return resp, _) => is_file_body resp = isinstance_Path result
     | (Raise _, _) => True
     end).
Proof.
  split; [| split].
  - eexists. repeat split; reflexivity.
  - reflexivity.
  - intros result.
    unfold create_response, bind, send_file, lift, ret, jsonify.
    destruct result as [ | | b | z | f | s' | p | n c | l | d | text | date | fields | id];
      try reflexivity;
      try (match goal with
           | |- context [dumps ?v] => destruct (dumps v); reflexivity
           end).
    cbn [py_str]. destruct (read_file (world st) p); reflexivity.
Qed.

(** ** The help document *)

Lemma stringified_native (os : list (PyVal float)) :
  forallb (json_native (float:=float))
          (map (fun o => VStr (py_str o)) os) = true.
Proof. induction os as [| o os IH]; simpl; auto. Qed.

Lemma stringified_text (os : list (PyVal float)) :
  forallb (fun x : PyVal float =>
             match x with VStr _ => true | _ => false end)
          (map (fun o => VStr (py_str o)) os) = true.
Proof. induction os as [| o os IH]; simpl; auto. Qed.

Lemma text_native (v : PyVal float) : is_text v = true -> json_native v = true.
Proof.
  destruct v as [ | | b | z | f | s | p | n c | l | d | text | date | fields | id];
    simpl; try discriminate; [reflexivity |].
  induction l as [| x l IH]; simpl; [reflexivity |].
  destruct x; try discriminate. simpl. exact IH.
Qed.

(** A string or a list of strings is its own canonical form. *)
Lemma text_canon (v : PyVal float) : is_text v = true -> canon v = v.
Proof.
  destruct v as [ | | b | z | f | s | p | n c | l | d | text | date | fields | id];
    simpl; try discriminate; [reflexivity |].
  intros Hl. f_equal.
  induction l as [| x l IH]; simpl in *; [reflexivity |].
  destruct x; try discriminate. simpl. now rewrite IH.
Qed.

(** Every value of an entry is a string or a list of strings. *)
Lemma help_arg_text (spec : InputSpec float PyType) :
  forallb (fun kv => is_text (snd kv)) (help_arg spec) = true.
Proof.
  unfold help_arg, str_bool.
  destruct (spec_help spec) as [text |];
    [destruct (String.eqb text "") |];
    destruct (is_not_UNSPECIFIED (spec_default spec));
    destruct (spec_min spec); destruct (spec_max spec);
    destruct (spec_options spec) as [os |];
    cbn; try rewrite stringified_text; reflexivity.
Qed.

Lemma text_values_native (d : dict (PyVal float)) :
  forallb (fun kv => is_text (snd kv)) d = true ->
  forallb (fun kv => json_native (snd kv)) d = true.
Proof.
  induction d as [| [k v] d IH]; simpl; [reflexivity |].
  intros H. apply andb_prop in H. destruct H as [Hv Hd].
  now rewrite (text_native v Hv), IH.
Qed.

Lemma text_values_canon (d : dict (PyVal float)) :
  forallb (fun kv => is_text (snd kv)) d = true ->
  map (fun kv => (fst kv, canon (snd kv))) d = d.
Proof.
  induction d as [| [k v] d IH]; simpl; [reflexivity |].
  intros H. apply andb_prop in H. destruct H as [Hv Hd].
  now rewrite (text_canon v Hv), IH.
Qed.

Lemma native_dict_set (k : string) (v : PyVal float) (d : dict (PyVal float)) :
  forallb (fun kv => json_native (snd kv)) d = true ->
  json_native v = true ->
  forallb (fun kv => json_native (snd kv)) (Dict.set k v d) = true.
Proof.
  intros Hd Hv. induction d as [| [k' v'] d IH]; simpl in *.
  - now rewrite Hv.
  - apply andb_prop in Hd. destruct Hd as [Hv' Hd].
    destruct (String.eqb k k'); simpl.
    + now rewrite Hv, Hd.
    + now rewrite Hv', IH.
Qed.

Lemma help_args_native (specs : list (string * InputSpec float PyType)) :
  forall args : dict (PyVal float),
    forallb (fun kv => json_native (snd kv)) args = true ->
    forallb (fun kv => json_native (snd kv)) (help_args specs args) = true.
Proof.
  induction specs as [| [name spec] specs IH]; intros args Hargs; simpl.
  - exact Hargs.
  - apply IH, native_dict_set; [exact Hargs |].
    simpl. apply text_values_native, help_arg_text.
Qed.

(** The help document holds strings, lists of strings and dictionaries
    only. *)
Lemma help_document_native : json_native (help_document model) = true.
Proof.
  unfold help_document. simpl. rewrite andb_true_r.
  destruct (predict_inputs model); [| reflexivity].
  now apply help_args_native.
Qed.

(** [help] always answers 200 with a JSON body, the serialized
    [help_document], and leaves the state alone. *)
Lemma help_returns (st : State W) :
  exists j,
    help model st =
    (Return (mkResponse 200 "application/json"
               [("Content-Type", "application/json")] (BJson j)), st) /\
    loads j = canon (help_document model).
Proof.
  unfold help, lift, jsonify.
  destruct (dumps_native (help_document model) help_document_native)
    as [j [Hd Hl]].
  rewrite Hd. now exists j.
Qed.

(** In a schema (a dictionary: no key twice) every field adds its own entry,
    after the entries already there. *)
Lemma help_args_appends (specs : list (string * InputSpec float PyType)) :
  forall args : dict (PyVal float),
    NoDup (Dict.keys specs) ->
    (forall k, In k (Dict.keys specs) -> ~ In k (Dict.keys args)) ->
    help_args specs args = args ++ map help_entry specs.
Proof.
  unfold Dict.keys.
  induction specs as [| [name spec] specs IH]; intros args Hnd Hdisj; simpl.
  - now rewrite app_nil_r.
  - inversion Hnd as [| ? ? Hnotin Hnd']; subst.
    rewrite DictFacts.set_new.
    + rewrite IH; [now rewrite <- app_assoc | exact Hnd' |].
      intros k Hk. rewrite map_app, in_app_iff. simpl.
      intros [H | [H | []]].
      * apply (Hdisj k); auto. simpl. auto.
      * subst. contradiction.
    + apply DictFacts.mem_false_not_In. apply Hdisj. simpl. auto.
Qed.

Lemma help_args_entries (specs : list (string * InputSpec float PyType)) :
  NoDup (Dict.keys specs) ->
  help_args specs [] = map help_entry specs.
Proof.
  intros Hnd. rewrite help_args_appends; auto.
Qed.

Lemma help_entry_keys (specs : list (string * InputSpec float PyType)) :
  Dict.keys (map help_entry specs) = Dict.keys specs.
Proof.
  unfold Dict.keys. rewrite map_map. reflexivity.
Qed.

Lemma help_entry_get (specs : list (string * InputSpec float PyType))
      (name : string) (spec : InputSpec float PyType) :
  NoDup (Dict.keys specs) -> In (name, spec) specs ->
  Dict.get name (map help_entry specs) = Some (VDict (help_arg spec)).
Proof.
  intros Hnd Hin. apply DictFacts.get_In_NoDup.
  - now rewrite help_entry_keys.
  - apply (in_map help_entry) in Hin. exact Hin.
Qed.

(** The document as it is served: fields and, within a field, keys in
    sorted order. *)
Lemma help_document_served (specs : dict (InputSpec float PyType)) :
  predict_inputs model = Some specs ->
  NoDup (Dict.keys specs) ->
  canon (help_document model) =
  VDict [("arguments", VDict (Dict.sort_keys (map served_entry specs)))].
Proof.
  intros Hspecs Hnd. unfold help_document. rewrite Hspecs.
  rewrite help_args_entries by exact Hnd.
  simpl. rewrite map_map.
  assert (E : map (fun x : string * InputSpec float PyType =>
                     (fst (help_entry x), canon (snd (help_entry x)))) specs
              = map served_entry specs).
  { apply map_ext. intros [name spec]. unfold help_entry, served_entry.
    simpl. now rewrite text_values_canon by apply help_arg_text. }
  now rewrite E.
Qed.

Lemma served_entry_keys_perm (specs : dict (InputSpec float PyType)) :
  Permutation (Dict.keys (Dict.sort_keys (map served_entry specs)))
              (Dict.keys specs).
Proof.
  unfold Dict.keys. rewrite (DictFacts.sort_keys_perm (map served_entry specs)).
  rewrite map_map. reflexivity.
Qed.

Lemma served_entry_get (specs : dict (InputSpec float PyType))
      (name : string) (spec : InputSpec float PyType) :
  NoDup (Dict.keys specs) -> In (name, spec) specs ->
  Dict.get name (Dict.sort_keys (map served_entry specs)) =
  Some (VDict (Dict.sort_keys (help_arg spec))).
Proof.
  intros Hnd Hin. rewrite DictFacts.get_sort_keys.
  apply DictFacts.get_In_NoDup.
  - unfold Dict.keys in *. now rewrite map_map.
  - apply (in_map served_entry) in Hin. exact Hin.
Qed.

Ltac help_arg_cases spec :=
  unfold help_arg, shown_help, str_bool;
  destruct (spec_help spec) as [text |];
  [destruct (String.eqb text "") |];
  destruct (is_not_UNSPECIFIED (spec_default spec));
  destruct (spec_min spec); destruct (spec_max spec);
  destruct (spec_options spec); reflexivity.

Lemma help_arg_type (spec : InputSpec float PyType) :
  Dict.get "type" (help_arg spec) =
  Some (VStr (get_type_name (spec_type spec))).
Proof. help_arg_cases spec. Qed.

Lemma help_arg_help (spec : InputSpec float PyType) :
  Dict.get "help" (help_arg spec) =
  option_map VStr (shown_help (spec_help spec)).
Proof. help_arg_cases spec. Qed.

Lemma help_arg_default (spec : InputSpec float PyType) :
  Dict.get "default" (help_arg spec) =
  if is_not_UNSPECIFIED (spec_default spec)
  then Some (VStr (py_str (spec_default spec)))
  else None.
Proof. help_arg_cases spec. Qed.

Lemma help_arg_min (spec : InputSpec float PyType) :
  Dict.get "min" (help_arg spec) =
  option_map (fun m => VStr (py_str m)) (spec_min spec).
Proof. help_arg_cases spec. Qed.

Lemma help_arg_max (spec : InputSpec float PyType) :
  Dict.get "max" (help_arg spec) =
  option_map (fun m => VStr (py_str m)) (spec_max spec).
Proof. help_arg_cases spec. Qed.

Lemma help_arg_options (spec : InputSpec float PyType) :
  Dict.get "options" (help_arg spec) =
  option_map (fun os => VList (map (fun o => VStr (py_str o)) os))
             (spec_options spec).
Proof. help_arg_cases spec. Qed.


(** C7, as the code has it.  The help document has one entry for every
    field of the schema and no other; [jsonify] lists them by sorted field
    name, not in the order of declaration.  Each entry holds the field's
    type name as [get_type_name] gives it, the help text when that text is
    declared and not empty (an empty help text is left out like an absent
    one), and [str] of [min], of [max] and of every option whenever these
    are not [None]. *)
Theorem help_describes_fields
        (st : State W) (specs : dict (InputSpec float PyType)) :
  predict_inputs model = Some specs ->
  NoDup (Dict.keys specs) ->
  exists j args,
    help model st =
    (Return (mkResponse 200 "application/json"
               [("Content-Type", "application/json")] (BJson j)), st) /\
    loads j = VDict [("arguments", VDict args)] /\
    Permutation (Dict.keys args) (Dict.keys specs) /\
    Sorted (fun a b => String.leb a b = true) (Dict.keys args) /\
    forall name spec,
      In (name, spec) specs ->
      exists arg,
        Dict.get name args = Some (VDict arg) /\
        Dict.get "type" arg = Some (VStr (get_type_name (spec_type spec))) /\
        Dict.get "help" arg = option_map VStr (shown_help (spec_help spec)) /\
        Dict.get "min" arg =
          option_map (fun m => VStr (py_str m)) (spec_min spec) /\
        Dict.get "max" arg =
          option_map (fun m => VStr (py_str m)) (spec_max spec) /\
        Dict.get "options" arg =
          option_map (fun os => VList (map (fun o => VStr (py_str o)) os))
                     (spec_options spec).
Proof.
  intros Hspecs Hnd.
  destruct (help_returns st) as [j [Hhelp Hloads]].
  rewrite (help_document_served Hspecs Hnd) in Hloads.
  exists j, (Dict.sort_keys (map served_entry specs)).
  split; [exact Hhelp |].
  split; [exact Hloads |].
  split; [apply served_entry_keys_perm |].
  split; [apply DictFacts.sort_keys_sorted |].
  intros name spec Hin. exists (Dict.sort_keys (help_arg spec)).
  split; [now apply served_entry_get |].
  rewrite !DictFacts.get_sort_keys.
  auto using help_arg_type, help_arg_help, help_arg_min, help_arg_max,
    help_arg_options.
Qed.

(** ** Routing *)

Lemma make_app_routes (st0 st1 : State W) (app : Flask float) :
  make_app model st0 = (Return app, st1) -> url_map app = routes.
Proof.
  unfold make_app, bind, time_time_, call_setup, ret.
  destruct (time_time (world st0)) as [t0 w0]. simpl.
  destruct (setup model w0) as [[[] | e] w1]; simpl; [| discriminate].
  destruct (time_time w1) as [t1 w2]. simpl.
  intros H. injection H as <- _. reflexivity.
Qed.

(** C8. When [predict] carries no [_inputs], a GET of [/help] on the
    application [make_app] built answers 200 with the JSON body
    [{"arguments": {}}] and leaves the state (the world, the trace of calls
    to the model, [stderr]) exactly as it found it. *)
Theorem help_without_schema
        (st0 st1 st : State W) (app : Flask float) (request : Request float) :
  make_app model st0 = (Return app, st1) ->
  predict_inputs model = None ->
  dispatch_request model app GET "/help" request st =
  (Return (mkResponse 200 "application/json"
             [("Content-Type", "application/json")]
             (BJson (JObj [("arguments", JObj [])]))), st).
Proof.
  intros Happ Hnone. apply make_app_routes in Happ.
  unfold dispatch_request. rewrite Happ. simpl.
  unfold help, help_document. rewrite Hnone. reflexivity.
Qed.

(** C9. On the application [make_app] built, a request to [/infer] is
    answered exactly as the same request to [/predict], whatever the method,
    the request and the state: result and final state coincide; for POST
    both are [handle_request]. *)
Theorem infer_is_predict
        (st0 st1 st : State W) (app : Flask float) (request : Request float) :
  make_app model st0 = (Return app, st1) ->
  (forall method,
     dispatch_request model app method "/infer" request st =
     dispatch_request model app method "/predict" request st) /\
  dispatch_request model app POST "/infer" request st =
    handle_request model (app_setup_time app) request st /\
  dispatch_request model app POST "/predict" request st =
    handle_request model (app_setup_time app) request st.
Proof.
  intros Happ. apply make_app_routes in Happ.
  unfold dispatch_request. rewrite Happ.
  split; [| split]; [intros []; reflexivity | reflexivity | reflexivity].
Qed.

End Properties.

(** * Further properties of the handlers *)

Section Further.

Context {float PyType W : Type} {imports : Imports float PyType W}.
Variable model : Model float PyType W.

(** ** Input collection, continued *)

Lemma dict_get_app {V} (k : string) (d1 d2 : dict V) :
  Dict.get k (d1 ++ d2) =
  match Dict.get k d1 with
  | Some v => Some v
  | None => Dict.get k d2
  end.
Proof.
  induction d1 as [| [k' v'] d1 IH]; simpl; [reflexivity |].
  now destruct (String.eqb k k').
Qed.

Lemma dict_get_map {A B} (f : A -> B) (k : string) (d : dict A) :
  Dict.get k (map (fun kv => (fst kv, f (snd kv))) d) =
  option_map f (Dict.get k d).
Proof.
  induction d as [| [k' v'] d IH]; simpl; [reflexivity |].
  now destruct (String.eqb k k').
Qed.

(** Looking a key up in [items()] finds the first value the multi-dict
    holds for it. *)
Lemma items_from_get {V} (md : MultiDict.t V) :
  forall (seen : list string) (k : string),
    Dict.get k (MultiDict.items_from seen md) =
    if existsb (String.eqb k) seen then None else Dict.get k md.
Proof.
  induction md as [| [k' v] md IH]; intros seen k; simpl.
  - now destruct (existsb (String.eqb k) seen).
  - destruct (existsb (String.eqb k') seen) eqn:Eseen.
    + rewrite IH. destruct (existsb (String.eqb k) seen) eqn:Ek; [reflexivity |].
      destruct (String.eqb k k') eqn:E; [| reflexivity].
      apply String.eqb_eq in E. subst. congruence.
    + simpl. destruct (String.eqb k k') eqn:E.
      * apply String.eqb_eq in E. subst. now rewrite Eseen.
      * rewrite IH. simpl. now rewrite E.
Qed.

Lemma items_get {V} (md : MultiDict.t V) (k : string) :
  Dict.get k (MultiDict.items md) = Dict.get k md.
Proof. unfold MultiDict.items. now rewrite items_from_get. Qed.

(** Without repeated keys, the first loop appends one string per field. *)
Lemma collect_form_appends (items : list (string * string)) :
  forall d : dict (PyVal float),
    NoDup (map fst items) ->
    (forall k, In k (map fst items) -> Dict.mem k d = false) ->
    collect_form items d =
    d ++ map (fun kv => (fst kv, VStr (snd kv))) items.
Proof.
  induction items as [| [key val] items IH]; intros d Hnd Hnew; simpl.
  - now rewrite app_nil_r.
  - inversion Hnd as [| ? ? Hnotin Hnd']; subst.
    rewrite DictFacts.set_new by (apply Hnew; simpl; auto).
    rewrite IH; [now rewrite <- app_assoc | exact Hnd' |].
    intros k Hk. apply DictFacts.mem_false_not_In.
    unfold Dict.keys. rewrite map_app, in_app_iff. simpl.
    intros [H | [H | []]].
    + apply DictFacts.mem_In in H. rewrite Hnew in H; [discriminate |].
      simpl. auto.
    + subst. contradiction.
Qed.

(** When the second loop runs to its end it has appended every file, and no
    file key was in the mapping before. *)
Lemma collect_files_completes (items : list (string * PyVal float)) :
  forall d raw : dict (PyVal float),
    NoDup (map fst items) ->
    collect_files items d = inr raw ->
    raw = d ++ items /\
    forall k, In k (map fst items) -> Dict.mem k d = false.
Proof.
  induction items as [| [key val] items IH]; intros d raw Hnd Hraw;
    simpl in *.
  - injection Hraw as <-. rewrite app_nil_r. split; [reflexivity | tauto].
  - inversion Hnd as [| ? ? Hnotin Hnd']; subst.
    destruct (Dict.mem key d) eqn:Hkey; [discriminate |].
    destruct (IH _ _ Hnd' Hraw) as [Heq Hnew].
    rewrite DictFacts.set_new in Heq by exact Hkey.
    split; [now rewrite Heq, <- app_assoc |].
    intros k [<- | Hk]; [exact Hkey |].
    specialize (Hnew k Hk).
    rewrite DictFacts.mem_set_other in Hnew; [exact Hnew |].
    intros ->. contradiction.
Qed.

(** When the second loop stops early, it stops on a file key that the
    mapping held before the loop began. *)
Lemma collect_files_stops (items : list (string * PyVal float)) :
  forall (d : dict (PyVal float)) (early : Result (Response float)),
    NoDup (map fst items) ->
    collect_files items d = inl early ->
    exists key, In key (map fst items) /\ Dict.mem key d = true.
Proof.
  induction items as [| [key val] items IH]; intros d early Hnd Hearly;
    simpl in *; [discriminate |].
  inversion Hnd as [| ? ? Hnotin Hnd']; subst.
  destruct (Dict.mem key d) eqn:Hkey.
  - exists key. auto.
  - destruct (IH _ _ Hnd' Hearly) as [key' [Hin Hmem]].
    exists key'. split; [auto |].
    rewrite DictFacts.mem_set_other in Hmem; [exact Hmem |].
    intros ->. contradiction.
Qed.

(** The loop stops on the first file key that is in the mapping. *)
Lemma collect_files_first (pre post : list (string * PyVal float))
      (key : string) (val : PyVal float) :
  forall d : dict (PyVal float),
    NoDup (map fst (pre ++ (key, val) :: post)) ->
    (forall k, In k (map fst pre) -> Dict.mem k d = false) ->
    Dict.mem key d = true ->
    collect_files (pre ++ (key, val) :: post) d =
    inl (_abort400 ("Duplicated argument name in form and files: " ++ key)).
Proof.
  induction pre as [| [k0 v0] pre IH]; intros d Hnd Hpre Hkey; simpl in *.
  - now rewrite Hkey.
  - inversion Hnd as [| ? ? Hnotin Hnd']; subst.
    rewrite (Hpre k0) by auto.
    apply IH; [exact Hnd' | |].
    + intros k Hk. rewrite DictFacts.mem_set_other; [auto |].
      intros ->. apply Hnotin. rewrite map_app, in_app_iff. auto.
    + destruct (string_dec key k0) as [-> | Hne].
      * apply DictFacts.mem_set_same.
      * now rewrite DictFacts.mem_set_other.
Qed.

Lemma form_key_collected (request : Request float) (k : string) :
  Dict.mem k (collect_form (float:=float) (MultiDict.items (form request)) []) = true <->
  In k (map fst (form request)).
Proof.
  rewrite collect_form_mem, MultiDictFacts.items_keys.
  split; [intros [H | H]; [exact H | discriminate] | auto].
Qed.

(** The handler on the early exit of the second loop. *)
Lemma handle_request_early (setup_time : float) (request : Request float)
      (st : State W) (early : Result (Response float)) :
  collect_inputs request = inl early ->
  handle_request model setup_time request st =
  (early, mkState (snd (time_time (world st))) [] (stderr st) (trace st)).
Proof.
  intros Hearly.
  unfold handle_request, bind, time_time_, new_cleanup_functions,
    try_finally, handle_request_try.
  destruct (time_time (world st)) as [start_time w0]. simpl.
  rewrite Hearly. unfold lift. rewrite run_cleanup_drains. simpl.
  rewrite !app_nil_r. now destruct early.
Qed.

(** X1. The request is turned away at input collection exactly when some
    key is both a form field and a file: disjoint key sets always pass. *)
Theorem rejected_only_for_shared_key (request : Request float) :
  (exists early, collect_inputs request = inl early) <->
  (exists k, In k (map fst (form request)) /\
             In k (map fst (files request))).
Proof.
  unfold collect_inputs. split.
  - intros [early Hearly].
    apply collect_files_stops in Hearly;
      [| apply MultiDictFacts.items_NoDup].
    destruct Hearly as [key [Hin Hmem]]. exists key. split.
    + now apply form_key_collected.
    + apply (proj1 (MultiDictFacts.items_keys _ _)), Hin.
  - intros [k [Hform Hfiles]].
    destruct (collect_files_duplicate
                (MultiDict.items (files request))
                (collect_form (float:=float) (MultiDict.items (form request)) []))
      as [key [_ [_ Heq]]].
    + apply MultiDictFacts.items_NoDup.
    + exists k. split.
      * apply (proj2 (MultiDictFacts.items_keys _ _)), Hfiles.
      * now apply form_key_collected.
    + eexists. exact Heq.
Qed.

(** X2. When collection succeeds, the merged mapping lists the form fields
    and then the files, each key once; a key looks up to the first value the
    form holds for it, as a string, and otherwise to the first file uploaded
    under it. *)
Theorem merged_inputs_lookup
        (request : Request float) (raw : dict (PyVal float)) :
  collect_inputs request = inr raw ->
  Dict.keys raw =
    Dict.keys (MultiDict.items (form request))
    ++ Dict.keys (MultiDict.items (files request)) /\
  NoDup (Dict.keys raw) /\
  forall k,
    Dict.get k raw =
    match Dict.get k (form request) with
    | Some v => Some (VStr v)
    | None => Dict.get k (files request)
    end.
Proof.
  unfold collect_inputs. intros Hraw.
  apply collect_files_completes in Hraw;
    [| apply MultiDictFacts.items_NoDup].
  destruct Hraw as [Heq Hnew].
  rewrite collect_form_appends in Heq, Hnew;
    [| apply MultiDictFacts.items_NoDup | reflexivity
     | apply MultiDictFacts.items_NoDup | reflexivity ].
  simpl in Heq, Hnew. subst raw.
  assert (Hkeys :
            Dict.keys (map (fun kv : string * string =>
                              (fst kv, VStr (float:=float) (snd kv)))
                           (MultiDict.items (form request)))
            = Dict.keys (MultiDict.items (form request))).
  { unfold Dict.keys. rewrite map_map. reflexivity. }
  split; [| split].
  - unfold Dict.keys in *. now rewrite map_app, Hkeys.
  - unfold Dict.keys in *. rewrite map_app, Hkeys.
    apply NoDup_app; try apply MultiDictFacts.items_NoDup.
    intros k Hform Hfiles. specialize (Hnew k Hfiles).
    apply DictFacts.mem_false_not_In in Hnew. apply Hnew.
    unfold Dict.keys. now rewrite Hkeys.
  - intros k. rewrite dict_get_app, dict_get_map, !items_get.
    now destruct (Dict.get k (form request)).
Qed.

(** X3. Of several keys shared by form and files, the 400 names the first
    one in the order of the uploaded files. *)
Theorem duplicate_message_names_first_file_key
        (setup_time : float) (request : Request float) (st : State W)
        (pre post : list (string * PyVal float))
        (key : string) (val : PyVal float) :
  MultiDict.items (files request) = pre ++ (key, val) :: post ->
  (forall k, In k (map fst pre) -> ~ In k (map fst (form request))) ->
  In key (map fst (form request)) ->
  handle_request model setup_time request st =
  (Return (mkResponse 400 "application/json"
             [("Content-Type", "application/json")]
             (BJson (JObj [("message",
                            JStr ("Duplicated argument name in form and files: "
                                    ++ key))]))),
   mkState (snd (time_time (world st))) [] (stderr st) (trace st)).
Proof.
  intros Hitems Hpre Hkey.
  rewrite (handle_request_early setup_time request st
             (early := _abort400 ("Duplicated argument name in form and files: "
                                    ++ key))).
  - reflexivity.
  - unfold collect_inputs. rewrite Hitems. apply collect_files_first.
    + rewrite <- Hitems. apply MultiDictFacts.items_NoDup.
    + intros k Hk. specialize (Hpre k Hk).
      destruct (Dict.mem k (collect_form (float:=float) (MultiDict.items (form request)) []))
        eqn:E; [| reflexivity].
      apply form_key_collected in E. contradiction.
    + now apply form_key_collected.
Qed.

(** ** The request pipeline *)

(** X4. When conversion and the model both return, the [try] suite ends in
    [create_response] of the model's result, built before any cleanup runs,
    and that is what the handler answers (unless a cleanup callback then
    raises what [except Exception] does not catch, which takes its place).
    The run time it reports is the clock read after the model returned minus
    the clock read when the request came in, so it spans conversion and
    prediction.  Conversion is called before the model, each once, and the
    list drained afterwards is the list as [run_model] left it. *)
Theorem successful_prediction
        (setup_time : float) (request : Request float) (st : State W)
        (specs : dict (InputSpec float PyType))
        (raw inputs : dict (PyVal float)) (result : PyVal float)
        (t0 t1 : float) (w0 w1 w2 w3 : W) (cfs1 cfs2 : list (Callback W)) :
  collect_inputs request = inr raw ->
  predict_inputs model = Some specs ->
  time_time (world st) = (t0, w0) ->
  validate_and_convert_inputs model raw [] w0 = (Return inputs, cfs1, w1) ->
  run_model model inputs cfs1 w1 = (Return result, cfs2, w2) ->
  time_time w2 = (t1, w3) ->
  let built :=
    mkState w3 cfs2 (stderr st) (trace st ++ [EvValidate; EvRunModel]) in
  let outcome :=
    fst (create_response result setup_time (float_sub t1 t0) built) in
  handle_request model setup_time request st =
  (after_cleanup outcome (fst (drain cfs2 w3)),
   mkState (snd (drain cfs2 w3)) cfs2
           (stderr st ++ caught_messages (fst (drain cfs2 w3)))
           (trace st ++ [EvValidate; EvRunModel]
              ++ map cleanup_event (fst (drain cfs2 w3)))) /\
  (escaped (fst (drain cfs2 w3)) = None ->
   fst (handle_request model setup_time request st) = outcome /\
   map fst (fst (drain cfs2 w3)) = cfs2) /\
  forall resp,
    outcome = Return resp ->
    status_code resp = 200%Z /\
    Headers.get "X-Setup-Time" (headers resp) = Some (float_str setup_time) /\
    Headers.get "X-Run-Time" (headers resp)
      = Some (float_str (float_sub t1 t0)).
Proof.
  intros Hraw Hspecs Ht0 Hval Hrun Ht1 built outcome.
  assert (Heq :
            handle_request model setup_time request st =
            (after_cleanup outcome (fst (drain cfs2 w3)),
             mkState (snd (drain cfs2 w3)) cfs2
                     (stderr st ++ caught_messages (fst (drain cfs2 w3)))
                     (trace st ++ [EvValidate; EvRunModel]
                        ++ map cleanup_event (fst (drain cfs2 w3))))).
  { rewrite (handle_request_after_try model setup_time request st Ht0
               (outcome := outcome) (st1 := built)).
    - subst built. cbn [world cleanup_functions stderr trace].
      now rewrite <- !app_assoc.
    - rewrite handle_request_try_cases, Hraw, Hspecs.
      cbn [world cleanup_functions stderr trace]. rewrite Hval.
      rewrite run_model_step.
      cbn [world cleanup_functions stderr trace]. rewrite Hrun, Ht1.
      cbn [fst snd]. subst outcome built. now rewrite <- !app_assoc. }
  split; [exact Heq | split].
  - intros Hesc. rewrite Heq. cbn [fst]. unfold after_cleanup.
    rewrite Hesc. split; [reflexivity | now apply drain_callbacks].
  - intros resp Hresp.
    assert (Hcr : create_response result setup_time (float_sub t1 t0) built
                  = (Return resp, built)).
    { rewrite create_response_eq. now f_equal. }
    split; [exact (create_response_status _ _ _ _ Hcr) |].
    exact (create_response_headers _ _ _ _ Hcr).
Qed.

(** X5. An exception out of the model is not caught: the [try] suite ends
    in it, no response is built and the clock is not read again; the list
    as [run_model] left it is then drained, and the handler raises the
    model's exception (unless a cleanup callback raises what
    [except Exception] does not catch, which takes its place). *)
Theorem model_exception_propagates
        (setup_time : float) (request : Request float) (st : State W)
        (specs : dict (InputSpec float PyType))
        (raw inputs : dict (PyVal float)) (e : PyExc)
        (t0 : float) (w0 w1 w2 : W) (cfs1 cfs2 : list (Callback W)) :
  collect_inputs request = inr raw ->
  predict_inputs model = Some specs ->
  time_time (world st) = (t0, w0) ->
  validate_and_convert_inputs model raw [] w0 = (Return inputs, cfs1, w1) ->
  run_model model inputs cfs1 w1 = (Raise e, cfs2, w2) ->
  handle_request model setup_time request st =
  (after_cleanup (Raise e) (fst (drain cfs2 w2)),
   mkState (snd (drain cfs2 w2)) cfs2
           (stderr st ++ caught_messages (fst (drain cfs2 w2)))
           (trace st ++ [EvValidate; EvRunModel]
              ++ map cleanup_event (fst (drain cfs2 w2)))) /\
  (escaped (fst (drain cfs2 w2)) = None ->
   fst (handle_request model setup_time request st) = Raise e /\
   map fst (fst (drain cfs2 w2)) = cfs2) /\
  exists e', fst (handle_request model setup_time request st) = Raise e'.
Proof.
  intros Hraw Hspecs Ht0 Hval Hrun.
  assert (Heq :
            handle_request model setup_time request st =
            (after_cleanup (Raise e) (fst (drain cfs2 w2)),
             mkState (snd (drain cfs2 w2)) cfs2
                     (stderr st ++ caught_messages (fst (drain cfs2 w2)))
                     (trace st ++ [EvValidate; EvRunModel]
                        ++ map cleanup_event (fst (drain cfs2 w2))))).
  { rewrite (handle_request_after_try model setup_time request st Ht0
               (outcome := Raise e)
               (st1 := mkState w2 cfs2 (stderr st)
                               (trace st ++ [EvValidate; EvRunModel]))).
    - cbn [world cleanup_functions stderr trace]. now rewrite <- !app_assoc.
    - rewrite handle_request_try_cases, Hraw, Hspecs.
      cbn [world cleanup_functions stderr trace]. rewrite Hval.
      rewrite run_model_step.
      cbn [world cleanup_functions stderr trace]. rewrite Hrun.
      now rewrite <- !app_assoc. }
  split; [exact Heq | split].
  - intros Hesc. rewrite Heq. cbn [fst]. unfold after_cleanup.
    rewrite Hesc. split; [reflexivity | now apply drain_callbacks].
  - rewrite Heq. cbn [fst]. unfold after_cleanup.
    destruct (escaped (fst (drain cfs2 w2))) as [e' |]; eexists; reflexivity.
Qed.

(** X6. Only [InputValidationError] becomes a 400.  Any other exception
    out of conversion ends the [try] suite as it is; the model is not
    called, the list conversion left is drained, and the handler raises that
    exception (unless a cleanup callback raises what [except Exception]
    does not catch, which takes its place). *)
Theorem conversion_crash_propagates
        (setup_time : float) (request : Request float) (st : State W)
        (specs : dict (InputSpec float PyType))
        (raw : dict (PyVal float)) (e : PyExc)
        (t0 : float) (w0 w1 : W) (cfs1 : list (Callback W)) :
  collect_inputs request = inr raw ->
  predict_inputs model = Some specs ->
  time_time (world st) = (t0, w0) ->
  validate_and_convert_inputs model raw [] w0 = (Raise e, cfs1, w1) ->
  isinstance_exc e InputValidationError = false ->
  handle_request model setup_time request st =
  (after_cleanup (Raise e) (fst (drain cfs1 w1)),
   mkState (snd (drain cfs1 w1)) cfs1
           (stderr st ++ caught_messages (fst (drain cfs1 w1)))
           (trace st ++ [EvValidate]
              ++ map cleanup_event (fst (drain cfs1 w1)))) /\
  (escaped (fst (drain cfs1 w1)) = None ->
   fst (handle_request model setup_time request st) = Raise e /\
   map fst (fst (drain cfs1 w1)) = cfs1) /\
  exists e', fst (handle_request model setup_time request st) = Raise e'.
Proof.
  intros Hraw Hspecs Ht0 Hval Hcls.
  assert (Heq :
            handle_request model setup_time request st =
            (after_cleanup (Raise e) (fst (drain cfs1 w1)),
             mkState (snd (drain cfs1 w1)) cfs1
                     (stderr st ++ caught_messages (fst (drain cfs1 w1)))
                     (trace st ++ [EvValidate]
                        ++ map cleanup_event (fst (drain cfs1 w1))))).
  { rewrite (handle_request_after_try model setup_time request st Ht0
               (outcome := Raise e)
               (st1 := mkState w1 cfs1 (stderr st) (trace st ++ [EvValidate]))).
    - cbn [world cleanup_functions stderr trace]. now rewrite <- !app_assoc.
    - rewrite handle_request_try_cases, Hraw, Hspecs.
      cbn [world cleanup_functions stderr trace]. now rewrite Hval, Hcls. }
  split; [exact Heq | split].
  - intros Hesc. rewrite Heq. cbn [fst]. unfold after_cleanup.
    rewrite Hesc. split; [reflexivity | now apply drain_callbacks].
  - rewrite Heq. cbn [fst]. unfold after_cleanup.
    destruct (escaped (fst (drain cfs1 w1))) as [e' |]; eexists; reflexivity.
Qed.

(** X7. Without a schema the merged raw inputs go to the model as they
    are: conversion is never called, the [try] suite ends in the model's
    exception or in [create_response] of its result, and the list the model
    left is drained; that outcome is the handler's (unless a cleanup
    callback raises what [except Exception] does not catch, which takes its
    place), and then every callback the model registered was called. *)
Theorem raw_inputs_reach_model
        (setup_time : float) (request : Request float) (st : State W)
        (raw : dict (PyVal float)) (r : Result (PyVal float))
        (t0 : float) (w0 w1 : W) (cfs : list (Callback W)) :
  collect_inputs request = inr raw ->
  predict_inputs model = None ->
  time_time (world st) = (t0, w0) ->
  run_model model raw [] w0 = (r, cfs, w1) ->
  exists st' runs,
    runs = fst (drain cfs (match r with
                           | Return _ => snd (time_time w1)
                           | Raise _ => w1
                           end)) /\
    handle_request model setup_time request st =
    (after_cleanup
       (match r with
        | Return result =>
            fst (create_response result setup_time
                   (float_sub (fst (time_time w1)) t0)
                   (mkState (snd (time_time w1)) cfs (stderr st)
                            (trace st ++ [EvRunModel])))
        | Raise e => Raise e
        end) runs, st') /\
    (exists rest, cfs = map fst runs ++ rest) /\
    (escaped runs = None -> map fst runs = cfs) /\
    trace st' = trace st ++ EvRunModel :: map cleanup_event runs.
Proof.
  intros Hraw Hnone Ht0 Hrun.
  pose proof (handle_request_try_cases model request setup_time t0
                (mkState w0 [] (stderr st) (trace st))) as Htry.
  rewrite Hraw, Hnone, run_model_step in Htry.
  cbn [world cleanup_functions stderr trace] in Htry. rewrite Hrun in Htry.
  destruct r as [result | e];
    rewrite (handle_request_after_try model setup_time request st Ht0 Htry);
    cbn [world cleanup_functions stderr trace];
    eexists; eexists; (split; [reflexivity |]);
    (split; [reflexivity |]);
    (split; [apply drain_prefix |]);
    (split; [apply drain_callbacks |]);
    cbn [trace]; now rewrite <- app_assoc.
Qed.

Lemma collect_files_early_form (items : list (string * PyVal float)) :
  forall (d : dict (PyVal float)) (early : Result (Response float)),
    collect_files items d = inl early ->
    exists key,
      early = _abort400 ("Duplicated argument name in form and files: " ++ key).
Proof.
  induction items as [| [key val] items IH]; intros d early Hearly;
    simpl in *; [discriminate |].
  destruct (Dict.mem key d).
  - injection Hearly as <-. now exists key.
  - eapply IH, Hearly.
Qed.

(** What the [try] suite adds to the trace, and when. *)
Lemma handle_request_try_events (request : Request float)
      (setup_time start_time : float) (st : State W) :
  exists evs,
    trace (snd (handle_request_try model request setup_time start_time st))
    = trace st ++ evs /\
    ((evs = [] /\ exists early, collect_inputs request = inl early) \/
     (evs = [EvValidate] /\ predict_inputs model <> None) \/
     (evs = [EvValidate; EvRunModel] /\ predict_inputs model <> None) \/
     (evs = [EvRunModel] /\ predict_inputs model = None)).
Proof.
  rewrite handle_request_try_cases.
  destruct (collect_inputs request) as [early | raw] eqn:Hraw.
  { exists []. simpl. rewrite app_nil_r. split; [reflexivity |].
    left. split; [reflexivity | now exists early]. }
  destruct (predict_inputs model) as [specs |] eqn:Hspecs.
  - destruct (validate_and_convert_inputs model raw
                (cleanup_functions st) (world st)) as [[[inputs | e] cfs] w].
    + rewrite run_model_step. cbn [world cleanup_functions stderr trace].
      exists [EvValidate; EvRunModel]. split.
      * destruct (run_model model inputs cfs w) as [[[result | e] cfs'] w'];
          cbn [snd trace]; now rewrite <- app_assoc.
      * right. right. left. split; [reflexivity | discriminate].
    + exists [EvValidate]. split; [reflexivity |].
      right. left. split; [reflexivity | discriminate].
  - rewrite run_model_step. exists [EvRunModel]. split.
    + destruct (run_model model raw (cleanup_functions st) (world st))
        as [[[result | e] cfs'] w']; reflexivity.
    + right. right. right. split; reflexivity.
Qed.


(** The responses the [try] suite can return. *)
Lemma handle_request_try_returns (request : Request float)
      (setup_time start_time : float) (st st1 : State W)
      (resp : Response float) :
  handle_request_try model request setup_time start_time st
  = (Return resp, st1) ->
  (exists message, _abort400 message = Return resp) \/
  (exists result run_time st0 st0',
      create_response result setup_time run_time st0 = (Return resp, st0')).
Proof.
  rewrite handle_request_try_cases.
  assert (Hstep : forall inputs st2,
             (result <- call_run_model model inputs ;;
              now <- time_time_ ;;
              create_response result setup_time (float_sub now start_time))
               st2 = (Return resp, st1) ->
             exists result run_time st0 st0',
               create_response result setup_time run_time st0
               = (Return resp, st0')).
  { intros inputs st2. rewrite run_model_step.
    destruct (run_model model inputs (cleanup_functions st2) (world st2))
      as [[[result | e] cfs] w]; [| discriminate].
    intros H. injection H as Hfst _.
    eexists result, _, _, _. rewrite create_response_eq, Hfst. reflexivity. }
  destruct (collect_inputs request) as [early | raw] eqn:Hraw.
  { intros H. injection H as -> _. left.
    unfold collect_inputs in Hraw.
    apply collect_files_early_form in Hraw. destruct Hraw as [key Hkey].
    eexists. symmetry. exact Hkey. }
  destruct (predict_inputs model) as [specs |].
  - destruct (validate_and_convert_inputs model raw
                (cleanup_functions st) (world st)) as [[[inputs | e] cfs] w].
    + intros H. right. eapply Hstep, H.
    + destruct (isinstance_exc e InputValidationError); [| discriminate].
      intros H. injection H as <- _. left. now exists (exc_str e).
  - intros H. right. eapply Hstep, H.
Qed.

(** The responses the handler can return. *)
Lemma handle_request_returns
      (setup_time : float) (request : Request float) (st st' : State W)
      (resp : Response float) :
  handle_request model setup_time request st = (Return resp, st') ->
  (exists message,
      resp = mkResponse 400 "application/json"
               [("Content-Type", "application/json")]
               (BJson (JObj [("message", JStr message)]))) \/
  (status_code resp = 200%Z /\
   Headers.get "X-Setup-Time" (headers resp) = Some (float_str setup_time) /\
   exists run_time,
     Headers.get "X-Run-Time" (headers resp) = Some (float_str run_time)).
Proof.
  destruct (time_time (world st)) as [t0 w0] eqn:Ht0.
  destruct (handle_request_try model request setup_time t0
              (mkState w0 [] (stderr st) (trace st)))
    as [outcome st1] eqn:Htry.
  rewrite (handle_request_after_try model setup_time request st Ht0 Htry).
  intros H. injection H as Hout _. unfold after_cleanup in Hout.
  destruct (escaped (fst (drain (cleanup_functions st1) (world st1))));
    [discriminate |].
  subst outcome. apply handle_request_try_returns in Htry.
  destruct Htry as [[message Hmsg] | [result [run_time [st0 [st0' Hcr]]]]].
  - left. rewrite abort400_returns in Hmsg. injection Hmsg as <-.
    now exists message.
  - right. split; [exact (create_response_status _ _ _ _ Hcr) |].
    destruct (create_response_headers _ _ _ _ Hcr) as [Hsetup Hrun].
    split; [exact Hsetup | now exists run_time].
Qed.

(** X9. A response the handler returns is one of two kinds: a 400 whose
    body is a JSON object holding only a message and which carries no
    timing header, or a 200 which carries both timing headers, the setup
    time being the one the handler was given. *)
Theorem response_is_200_or_400
        (setup_time : float) (request : Request float) (st : State W) :
  match fst (handle_request model setup_time request st) with
  | Return resp =>
      (status_code resp = 400%Z /\
       (exists message, body resp = BJson (JObj [("message", JStr message)])) /\
       Headers.get "X-Setup-Time" (headers resp) = None /\
       Headers.get "X-Run-Time" (headers resp) = None) \/
      (status_code resp = 200%Z /\
       Headers.get "X-Setup-Time" (headers resp)
         = Some (float_str setup_time) /\
       exists run_time,
         Headers.get "X-Run-Time" (headers resp) = Some (float_str run_time))
  | Raise _ => True
  end.
Proof.
  destruct (handle_request model setup_time request st)
    as [[resp | e] st'] eqn:Hreq; [| exact I].
  cbn [fst]. apply handle_request_returns in Hreq.
  destruct Hreq as [[message ->] | H200]; [left | right; exact H200].
  repeat split. now exists message.
Qed.

(** ** Building the application *)

(** X10. [make_app] calls [setup] once, between two readings of the clock.
    When [setup] raises, [make_app] raises the same exception without
    reading the clock again, and no application exists.  When [setup]
    returns, the application keeps the difference of the two readings, and
    every 200 answered on [/predict] or [/infer] reports that same setup
    time, whenever the request comes. *)
Theorem make_app_times_setup (st0 : State W) (t0 : float) (w0 : W) :
  time_time (world st0) = (t0, w0) ->
  match setup model w0 with
  | (Raise e, w1) =>
      make_app model st0 =
      (Raise e,
       mkState w1 (cleanup_functions st0) (stderr st0)
               (trace st0 ++ [EvSetup]))
  | (Return _, w1) =>
      exists app,
        make_app model st0 =
        (Return app,
         mkState (snd (time_time w1)) (cleanup_functions st0) (stderr st0)
                 (trace st0 ++ [EvSetup])) /\
        app_setup_time app = float_sub (fst (time_time w1)) t0 /\
        forall path request st resp st',
          path = "/predict" \/ path = "/infer" ->
          dispatch_request model app POST path request st
          = (Return resp, st') ->
          status_code resp = 200%Z ->
          Headers.get "X-Setup-Time" (headers resp)
          = Some (float_str (float_sub (fst (time_time w1)) t0))
  end.
Proof.
  intros Ht0.
  unfold make_app, bind, time_time_, call_setup, ret. rewrite Ht0.
  cbn [world cleanup_functions stderr trace].
  destruct (setup model w0) as [[[] | e] w1]; [| reflexivity].
  cbn [world cleanup_functions stderr trace].
  destruct (time_time w1) as [t1 w2]. cbn [fst snd].
  eexists. split; [reflexivity |]. split; [reflexivity |].
  intros path request st resp st' Hpath Hdisp Hstatus.
  assert (Hreq : handle_request model (float_sub t1 t0) request st
                 = (Return resp, st')).
  { destruct Hpath as [-> | ->]; exact Hdisp. }
  apply handle_request_returns in Hreq.
  destruct Hreq as [[message ->] | [_ [Hsetup _]]]; [discriminate |].
  exact Hsetup.
Qed.

(** ** Routing, continued *)

(** X11. On the four paths the decorators register, with the methods GET
    and POST, only a POST to [/predict] or [/infer] reaches
    [handle_request].  A GET there and a POST to [/ping] or [/help] are
    answered 405, a GET of [/ping] or [/help] 200, and in each of these
    cases the state is left exactly as it was: the clock is not read, and
    neither conversion, the model nor any callback is called. *)
Theorem only_post_reaches_handler
        (st0 st1 st : State W) (app : Flask float)
        (method : Method) (path : string) (request : Request float) :
  make_app model st0 = (Return app, st1) ->
  In path (map (fun rule => fst (fst rule)) routes) ->
  (method = POST /\ (path = "/predict" \/ path = "/infer") /\
   dispatch_request model app method path request st =
   handle_request model (app_setup_time app) request st) \/
  (method = GET /\ (path = "/predict" \/ path = "/infer") /\
   exists resp,
     dispatch_request model app method path request st = (Return resp, st) /\
     status_code resp = 405%Z) \/
  (method = POST /\ (path = "/ping" \/ path = "/help") /\
   exists resp,
     dispatch_request model app method path request st = (Return resp, st) /\
     status_code resp = 405%Z) \/
  (method = GET /\ (path = "/ping" \/ path = "/help") /\
   exists resp,
     dispatch_request model app method path request st = (Return resp, st) /\
     status_code resp = 200%Z).
Proof.
  intros Happ Hpath. apply make_app_routes in Happ.
  unfold dispatch_request. rewrite Happ.
  destruct (help_returns model st) as [j [Hhelp _]].
  simpl in Hpath.
  destruct Hpath as [<- | [<- | [<- | [<- | []]]]]; destruct method;
    match goal with
    | |- context [match_rule ?r ?m ?p] =>
        let v := eval vm_compute in (match_rule r m p) in
        change (match_rule r m p) with v
    end;
    cbv iota; try (rewrite Hhelp).
  - right. left. split; [reflexivity |]. split; [auto |].
    eexists. split; reflexivity.
  - left. auto.
  - right. left. split; [reflexivity |]. split; [auto |].
    eexists. split; reflexivity.
  - left. auto.
  - right. right. right. split; [reflexivity |]. split; [auto |].
    eexists. split; reflexivity.
  - right. right. left. split; [reflexivity |]. split; [auto |].
    eexists. split; reflexivity.
  - right. right. right. split; [reflexivity |]. split; [auto |].
    eexists. split; reflexivity.
  - right. right. left. split; [reflexivity |]. split; [auto |].
    eexists. split; reflexivity.
Qed.

(** X12. A GET of [/ping] is answered with the text PONG, status 200,
    by the application of any model, in any state, and leaves the state
    alone. *)
Theorem ping_always_pong
        (st0 st1 st : State W) (app : Flask float) (request : Request float) :
  make_app model st0 = (Return app, st1) ->
  dispatch_request model app GET "/ping" request st =
  (Return (mkResponse 200 "text/html" [("Content-Type", "text/html")]
                      (BText "PONG")), st).
Proof.
  intros Happ. apply make_app_routes in Happ.
  unfold dispatch_request. rewrite Happ. reflexivity.
Qed.

(** ** The help document, continued *)

(** X13. [/help] never fails: whatever the schema holds as defaults,
    bounds and options (paths, objects, values JSON cannot represent), the
    document goes through [jsonify], because every value was passed through
    [str] first; the answer is a 200 whose body reads back as the document,
    keys in sorted order, and the state is left alone. *)
Theorem help_always_answers
        (st0 st1 st : State W) (app : Flask float) (request : Request float) :
  make_app model st0 = (Return app, st1) ->
  exists j,
    dispatch_request model app GET "/help" request st =
    (Return (mkResponse 200 "application/json"
               [("Content-Type", "application/json")] (BJson j)), st) /\
    loads j = canon (help_document model) /\
    serializable (help_document model).
Proof.
  intros Happ. apply make_app_routes in Happ.
  destruct (help_returns model st) as [j [Hhelp Hloads]].
  exists j. unfold dispatch_request. rewrite Happ. cbn [match_rule routes].
  split; [exact Hhelp |]. split; [exact Hloads |].
  unfold help, lift, jsonify in Hhelp. unfold serializable.
  destruct (dumps (help_document model)); [discriminate | discriminate Hhelp].
Qed.

(** The keys of an entry as it is served. *)
Lemma served_keys (spec : InputSpec float PyType) :
  Dict.keys (Dict.sort_keys (help_arg spec)) = served_entry_keys spec.
Proof.
  unfold help_arg, served_entry_keys, shown_help, str_bool.
  destruct (spec_help spec) as [text |];
    [destruct (String.eqb text "") |];
    destruct (is_not_UNSPECIFIED (spec_default spec));
    destruct (spec_min spec); destruct (spec_max spec);
    destruct (spec_options spec) as [os |];
    reflexivity.
Qed.

Lemma served_values_text (spec : InputSpec float PyType) :
  forallb (fun kv => is_text (snd kv)) (Dict.sort_keys (help_arg spec)) = true.
Proof.
  apply forallb_forall. intros kv Hin.
  apply (Permutation_in _ (DictFacts.sort_keys_perm (help_arg spec))) in Hin.
  pose proof (help_arg_text spec) as Htext.
  rewrite forallb_forall in Htext. now apply Htext.
Qed.

(** X14. In the help document as it is served, the entry of a field has
    the keys [default], [help], [max], [min], [options] and [type] in this
    (sorted) order, each of the first five only when the field has it, and
    no other key; every value is a string, and [options] a list of strings:
    numbers and other values never appear as such. *)
Theorem help_entry_shape
        (st : State W) (specs : dict (InputSpec float PyType))
        (name : string) (spec : InputSpec float PyType) :
  predict_inputs model = Some specs ->
  NoDup (Dict.keys specs) ->
  In (name, spec) specs ->
  exists j args arg,
    help model st =
    (Return (mkResponse 200 "application/json"
               [("Content-Type", "application/json")] (BJson j)), st) /\
    loads j = VDict [("arguments", VDict args)] /\
    Dict.get name args = Some (VDict arg) /\
    Dict.keys arg = served_entry_keys spec /\
    forallb (fun kv => is_text (snd kv)) arg = true.
Proof.
  intros Hspecs Hnd Hin.
  destruct (help_returns model st) as [j [Hhelp Hloads]].
  rewrite (help_document_served model Hspecs Hnd) in Hloads.
  exists j, (Dict.sort_keys (map served_entry specs)),
         (Dict.sort_keys (help_arg spec)).
  split; [exact Hhelp |].
  split; [exact Hloads |].
  split; [now apply served_entry_get |].
  split; [apply served_keys | apply served_values_text].
Qed.

End Further.

(** * The handlers at work on the small model *)

(** ** Cleanup after each way of leaving the [try] suite

    In all three runs conversion registered three callbacks, the second of
    which raises. *)

Example cleanup_after_response :
  let '(outcome, st) := handle_request Demo.model 3%Z Demo.req_ok Demo.st0 in
  (exists resp, outcome = Return resp /\ status_code resp = 200%Z) /\
  trace st =
    [EvValidate; EvRunModel;
     EvCleanup (Demo.unlink "/tmp/a") None;
     EvCleanup (Demo.unlink "/tmp/gone")
               (Some (mkExc FileNotFoundError "No such file: /tmp/gone"));
     EvCleanup (Demo.unlink "/tmp/b") None] /\
  stderr st = ["Cleanup function caught error: No such file: /tmp/gone"] /\
  Demo.disk (world st) = [("/out/cat.png", "PNG")].
Proof. vm_compute. repeat split. eexists. split; reflexivity. Qed.

Example cleanup_after_validation_error :
  let '(outcome, st) :=
    handle_request Demo.model 3%Z Demo.req_missing Demo.st0 in
  (exists resp, outcome = Return resp /\ status_code resp = 400%Z) /\
  trace st =
    [EvValidate;
     EvCleanup (Demo.unlink "/tmp/a") None;
     EvCleanup (Demo.unlink "/tmp/gone")
               (Some (mkExc FileNotFoundError "No such file: /tmp/gone"));
     EvCleanup (Demo.unlink "/tmp/b") None] /\
  stderr st = ["Cleanup function caught error: No such file: /tmp/gone"] /\
  Demo.disk (world st) = [("/out/cat.png", "PNG")].
Proof. vm_compute. repeat split. eexists. split; reflexivity. Qed.

Example cleanup_after_model_error :
  let '(outcome, st) := handle_request Demo.model 3%Z Demo.req_boom Demo.st0 in
  outcome = Raise (mkExc Exception "predict failed") /\
  trace st =
    [EvValidate; EvRunModel;
     EvCleanup (Demo.unlink "/tmp/a") None;
     EvCleanup (Demo.unlink "/tmp/gone")
               (Some (mkExc FileNotFoundError "No such file: /tmp/gone"));
     EvCleanup (Demo.unlink "/tmp/b") None] /\
  stderr st = ["Cleanup function caught error: No such file: /tmp/gone"] /\
  Demo.disk (world st) = [("/out/cat.png", "PNG")].
Proof. vm_compute. repeat split. Qed.

(** ** A string that names a file on the disk is still sent as text *)

Example string_naming_a_file :
  read_file (world Demo.st0) "/out/cat.png" = Some "PNG" /\
  create_response (VStr "/out/cat.png") 3%Z 4%Z Demo.st0 =
  (Return (mkResponse 200 "text/plain"
             [("Content-Type", "text/plain");
              ("X-Setup-Time", "3"); ("X-Run-Time", "4")]
             (BText "/out/cat.png")), Demo.st0) /\
  create_response (VPath "/out/cat.png") 3%Z 4%Z Demo.st0 =
  (Return (mkResponse 200 "application/octet-stream"
             [("Content-Type", "application/octet-stream");
              ("X-Setup-Time", "3"); ("X-Run-Time", "4")]
             (BFile "PNG")), Demo.st0).
Proof. repeat split. Qed.

(** ** Results that cannot be sent *)

Example unreadable_path_raises :
  fst (create_response (VPath "/out/dog.png") 3%Z 4%Z Demo.st0) =
  Raise (mkExc FileNotFoundError "/out/dog.png").
Proof. reflexivity. Qed.

Example opaque_object_raises :
  fst (create_response (VObject 7) 3%Z 4%Z Demo.st0) =
  Raise (mkExc TypeError "Object is not JSON serializable").
Proof. reflexivity. Qed.

(** ** The help document of the small model *)

Example help_of_demo_model :
  help Demo.model Demo.st0 =
  (Return
     (mkResponse 200 "application/json"
        [("Content-Type", "application/json")]
        (BJson
           (JObj
              [("arguments",
                JObj
                  [("count",
                    JObj [("help", JStr "how many"); ("max", JStr "10");
                          ("min", JStr "1"); ("type", JStr "int")]);
                   ("title",
                    JObj [("default", JStr "");
                          ("options", JArr [JStr "a"; JStr ""]);
                          ("type", JStr "str")])])]))),
   Demo.st0).
Proof. reflexivity. Qed.

(** The same schema declared in the other order is served the same. *)
Example help_of_reordered_schema :
  help Demo.model_title_first Demo.st0 = help Demo.model Demo.st0.
Proof. reflexivity. Qed.

(** ** Where the program departs from the claims *)

(** C1 as stated fails.  Conversion registers three callbacks, the second
    of which calls [sys.exit(1)].  [SystemExit] is no [Exception], so the
    guard of the loop lets it pass: the third callback is never called (the
    file it was to remove stays), nothing is written to [sys.stderr], and
    the request ends in [SystemExit] instead of the 200 the [try] suite had
    determined. *)
Lemma cleanup_stops_at_system_exit :
  @validate_and_convert_inputs Z string Demo.World Demo.exit_imports
    Demo.model [("count", VStr "5")] [] Demo.w_read =
  (Return [("count", VInt 5)],
   [Demo.unlink "/tmp/a"; Demo.sys_exit; Demo.unlink "/tmp/b"],
   Demo.w_converted) /\
  (exists resp,
      @handle_request_try Z string Demo.World Demo.exit_imports
        Demo.model Demo.req_ok 3%Z 100%Z
        (mkState Demo.w_read [] [] []) =
      (Return resp,
       mkState (Demo.mkWorld 102 (Demo.disk Demo.w_converted))
               [Demo.unlink "/tmp/a"; Demo.sys_exit; Demo.unlink "/tmp/b"]
               [] [EvValidate; EvRunModel]) /\
      status_code resp = 200%Z) /\
  fst (@handle_request Z string Demo.World Demo.exit_imports
         Demo.model 3%Z Demo.req_ok Demo.st0) =
  Raise (mkExc SystemExit "1") /\
  trace (snd (@handle_request Z string Demo.World Demo.exit_imports
                Demo.model 3%Z Demo.req_ok Demo.st0)) =
  [EvValidate; EvRunModel;
   EvCleanup (Demo.unlink "/tmp/a") None;
   EvCleanup Demo.sys_exit (Some (mkExc SystemExit "1"))] /\
  stderr (snd (@handle_request Z string Demo.World Demo.exit_imports
                 Demo.model 3%Z Demo.req_ok Demo.st0)) = [] /\
  Demo.disk (world (snd (@handle_request Z string Demo.World Demo.exit_imports
                           Demo.model 3%Z Demo.req_ok Demo.st0))) =
  [("/tmp/b", "B"); ("/out/cat.png", "PNG")].
Proof.
  split; [reflexivity |].
  split; [eexists; split; reflexivity |].
  vm_compute. repeat split.
Qed.


(** C7 as stated fails, twice.  The field [title] declares the help text
    [""], and its entry in the help document has no ["help"] key.  And the
    schema that declares [title] before [count] is served with [count]
    before [title]. *)
Lemma help_omits_empty_text_and_sorts_fields :
  (predict_inputs Demo.model
     = Some [("count", Demo.count_spec); ("title", Demo.title_spec)] /\
   spec_help Demo.title_spec = Some "" /\
   exists j args arg,
     help Demo.model Demo.st0 =
       (Return (mkResponse 200 "application/json"
                  [("Content-Type", "application/json")] (BJson j)),
        Demo.st0) /\
     loads j = VDict [("arguments", VDict args)] /\
     Dict.get "title" args = Some (VDict arg) /\
     Dict.get "help" arg = None /\
     Dict.get "help" arg <> Some (VStr "")) /\
  (predict_inputs Demo.model_title_first
     = Some [("title", Demo.title_spec); ("count", Demo.count_spec)] /\
   exists j args,
     help Demo.model_title_first Demo.st0 =
       (Return (mkResponse 200 "application/json"
                  [("Content-Type", "application/json")] (BJson j)),
        Demo.st0) /\
     loads j = VDict [("arguments", VDict args)] /\
     Dict.keys args = ["count"; "title"] /\
     Dict.keys args <> ["title"; "count"]).
Proof.
  split.
  - split; [reflexivity | split; [reflexivity |]].
    do 3 eexists.
    split; [reflexivity |].
    split; [reflexivity |].
    split; [reflexivity |].
    split; [reflexivity | discriminate].
  - split; [reflexivity |].
    do 2 eexists.
    split; [reflexivity |].
    split; [reflexivity |].
    split; [reflexivity | discriminate].
Qed.

(** ** The theorems with hypotheses, applied *)

Lemma cleanup_drains_registered_callbacks_witness :
  collect_inputs Demo.req_missing = inr [("title", VStr "x")] /\
  request_ends Demo.st0
    (handle_request Demo.model 3%Z Demo.req_missing Demo.st0)
    (_abort400 "Missing expected argument: count")
    [EvValidate] Demo.callbacks Demo.w_converted /\
  collect_inputs Demo.req_boom = inr [("count", VStr "7")] /\
  request_ends Demo.st0
    (handle_request Demo.model 3%Z Demo.req_boom Demo.st0)
    (Raise (mkExc Exception "predict failed"))
    [EvValidate; EvRunModel] Demo.callbacks Demo.w_converted /\
  collect_inputs Demo.req_ok = inr [("count", VStr "5")] /\
  request_ends Demo.st0
    (handle_request Demo.model 3%Z Demo.req_ok Demo.st0)
    (Return (mkResponse 200 "application/json"
               [("Content-Type", "application/json");
                ("X-Setup-Time", "3"); ("X-Run-Time", "1")]
               (BJson (JArr [JInt 5; JStr "done"]))))
    [EvValidate; EvRunModel] Demo.callbacks
    (Demo.mkWorld 102 (Demo.disk Demo.w_converted)).
Proof.
  assert (Hspecs : predict_inputs Demo.model =
                   Some [("count", Demo.count_spec);
                         ("title", Demo.title_spec)])
    by reflexivity.
  assert (H1 : collect_inputs Demo.req_missing = inr [("title", VStr "x")])
    by reflexivity.
  assert (H2 : collect_inputs Demo.req_boom = inr [("count", VStr "7")])
    by reflexivity.
  assert (H3 : collect_inputs Demo.req_ok = inr [("count", VStr "5")])
    by reflexivity.
  split; [exact H1 | split].
  { exact (@cleanup_drains_registered_callbacks
             Z string Demo.World Demo.imports Demo.model
             3%Z Demo.req_missing Demo.st0 _ _ H1 Hspecs). }
  split; [exact H2 | split].
  { exact (@cleanup_drains_registered_callbacks
             Z string Demo.World Demo.imports Demo.model
             3%Z Demo.req_boom Demo.st0 _ _ H2 Hspecs). }
  split; [exact H3 |].
  exact (@cleanup_drains_registered_callbacks
           Z string Demo.World Demo.imports Demo.model
           3%Z Demo.req_ok Demo.st0 _ _ H3 Hspecs).
Defined.

Lemma duplicate_key_rejected_witness :
  In "image" (map fst (form Demo.req_dup)) /\
  In "image" (map fst (files Demo.req_dup)) /\
  exists key,
    In key (map fst (form Demo.req_dup)) /\
    In key (map fst (files Demo.req_dup)) /\
    handle_request Demo.model 3%Z Demo.req_dup Demo.st0 =
    (Return (mkResponse 400 "application/json"
               [("Content-Type", "application/json")]
               (BJson (JObj [("message",
                              JStr ("Duplicated argument name in form and files: "
                                      ++ key))]))),
     mkState (snd (time_time (world Demo.st0))) [] (stderr Demo.st0)
             (trace Demo.st0)).
Proof.
  assert (Hform : In "image" (map fst (form Demo.req_dup)))
    by (simpl; auto).
  assert (Hfiles : In "image" (map fst (files Demo.req_dup)))
    by (simpl; auto).
  split; [exact Hform | split; [exact Hfiles |]].
  exact (duplicate_key_rejected Demo.model 3%Z Demo.req_dup Demo.st0
                                "image" Hform Hfiles).
Defined.


Lemma timing_headers_attached_witness :
  exists resp,
    create_response (VPath "/out/cat.png") 3%Z 4%Z Demo.st0
      = (Return resp, Demo.st0) /\
    Headers.get "X-Setup-Time" (headers resp) = Some "3" /\
    Headers.get "X-Run-Time" (headers resp) = Some "4".
Proof.
  eexists. split; [reflexivity |].
  exact (@timing_headers_attached
           Z string Demo.World Demo.imports
           (VPath "/out/cat.png") 3%Z 4%Z Demo.st0 Demo.st0 _ eq_refl).
Defined.

Lemma demo_schema_keys_NoDup :
  NoDup (Dict.keys [("count", Demo.count_spec); ("title", Demo.title_spec)]).
Proof.
  repeat constructor; simpl; intuition discriminate.
Defined.


Lemma help_describes_fields_witness :
  exists j args,
    help Demo.model Demo.st0 =
      (Return (mkResponse 200 "application/json"
                 [("Content-Type", "application/json")] (BJson j)),
       Demo.st0) /\
    loads j = VDict [("arguments", VDict args)] /\
    Permutation (Dict.keys args) ["count"; "title"] /\
    Sorted (fun a b => String.leb a b = true) (Dict.keys args) /\
    exists arg,
      Dict.get "count" args = Some (VDict arg) /\
      Dict.get "type" arg = Some (VStr "int") /\
      Dict.get "help" arg = Some (VStr "how many") /\
      Dict.get "min" arg = Some (VStr "1") /\
      Dict.get "max" arg = Some (VStr "10") /\
      Dict.get "options" arg = None.
Proof.
  destruct (@help_describes_fields
              Z string Demo.World Demo.imports Demo.model Demo.st0
              _ eq_refl demo_schema_keys_NoDup)
    as [j [args [H1 [H2 [H3 [H4 H5]]]]]].
  exists j, args.
  split; [exact H1 |]. split; [exact H2 |].
  split; [exact H3 |]. split; [exact H4 |].
  exact (H5 "count" Demo.count_spec (or_introl eq_refl)).
Defined.

Lemma help_without_schema_witness :
  make_app Demo.bare_model Demo.st0 =
    (Return (mkFlask 1%Z routes),
     mkState (Demo.mkWorld 102 [("/out/cat.png", "PNG")]) [] [] [EvSetup]) /\
  predict_inputs Demo.bare_model = None /\
  dispatch_request Demo.bare_model (mkFlask 1%Z routes) GET "/help"
                   Demo.req_ok Demo.st0 =
  (Return (mkResponse 200 "application/json"
             [("Content-Type", "application/json")]
             (BJson (JObj [("arguments", JObj [])]))), Demo.st0).
Proof.
  assert (Happ :
            make_app Demo.bare_model Demo.st0 =
            (Return (mkFlask 1%Z routes),
             mkState (Demo.mkWorld 102 [("/out/cat.png", "PNG")])
                     [] [] [EvSetup]))
    by reflexivity.
  split; [exact Happ | split; [reflexivity |]].
  exact (@help_without_schema
           Z string Demo.World Demo.imports Demo.bare_model
           Demo.st0 _ Demo.st0 _ Demo.req_ok Happ eq_refl).
Defined.

Lemma infer_is_predict_witness :
  make_app Demo.model Demo.st0 =
    (Return (mkFlask 1%Z routes),
     mkState (Demo.mkWorld 102 [("/out/cat.png", "PNG")]) [] [] [EvSetup]) /\
  dispatch_request Demo.model (mkFlask 1%Z routes) POST "/infer"
                   Demo.req_ok Demo.st0 =
  dispatch_request Demo.model (mkFlask 1%Z routes) POST "/predict"
                   Demo.req_ok Demo.st0.
Proof.
  assert (Happ :
            make_app Demo.model Demo.st0 =
            (Return (mkFlask 1%Z routes),
             mkState (Demo.mkWorld 102 [("/out/cat.png", "PNG")])
                     [] [] [EvSetup]))
    by reflexivity.
  split; [exact Happ |].
  exact (proj1 (@infer_is_predict
                  Z string Demo.World Demo.imports Demo.model
                  Demo.st0 _ Demo.st0 _ Demo.req_ok Happ) POST).
Defined.

(** ** The further theorems with hypotheses, applied *)

Lemma merged_inputs_lookup_witness :
  collect_inputs Demo.req_twice =
    inr [("count", VStr "5"); ("image", VFileStorage "cat.png" "PNG")] /\
  Dict.get "count" [("count", VStr (float:=Z) "5");
                    ("image", VFileStorage "cat.png" "PNG")]
    = Some (VStr "5") /\
  NoDup (Dict.keys [("count", VStr (float:=Z) "5");
                    ("image", VFileStorage "cat.png" "PNG")]).
Proof.
  assert (Hraw : collect_inputs Demo.req_twice =
                 inr [("count", VStr "5");
                      ("image", VFileStorage "cat.png" "PNG")])
    by reflexivity.
  destruct (merged_inputs_lookup Demo.req_twice Hraw) as [_ [Hnd Hget]].
  split; [exact Hraw | split; [| exact Hnd]].
  rewrite Hget. reflexivity.
Defined.

Lemma duplicate_message_names_first_file_key_witness :
  handle_request Demo.model 3%Z Demo.req_dup2 Demo.st0 =
  (Return (mkResponse 400 "application/json"
             [("Content-Type", "application/json")]
             (BJson (JObj [("message",
                            JStr "Duplicated argument name in form and files: image")]))),
   mkState Demo.w_read [] [] []).
Proof.
  assert (H1 : MultiDict.items (files Demo.req_dup2) =
               [("mask", VFileStorage "m.png" "M")]
                 ++ ("image", VFileStorage "cat.png" "PNG")
                 :: [("count", VFileStorage "n.txt" "5")])
    by reflexivity.
  assert (H2 : forall k,
             In k (map fst [("mask", VFileStorage (float:=Z) "m.png" "M")]) ->
             ~ In k (map fst (form Demo.req_dup2))).
  { simpl. intros k [<- | []] [H | [H | []]]; discriminate. }
  assert (H3 : In "image" (map fst (form Demo.req_dup2)))
    by (simpl; auto).
  rewrite (duplicate_message_names_first_file_key
             Demo.model 3%Z Demo.req_dup2 Demo.st0 _ _ _ _ H1 H2 H3).
  reflexivity.
Defined.

Lemma successful_prediction_witness :
  fst (handle_request Demo.model 3%Z Demo.req_ok Demo.st0) =
  Return (mkResponse 200 "application/json"
            [("Content-Type", "application/json");
             ("X-Setup-Time", "3"); ("X-Run-Time", "1")]
            (BJson (JArr [JInt 5; JStr "done"]))) /\
  trace (snd (handle_request Demo.model 3%Z Demo.req_ok Demo.st0)) =
  [EvValidate; EvRunModel]
    ++ map cleanup_event (fst (drain Demo.callbacks
                                     (Demo.mkWorld 102 (Demo.disk Demo.w_converted)))).
Proof.
  assert (H1 : collect_inputs Demo.req_ok = inr [("count", VStr "5")])
    by reflexivity.
  assert (H2 : predict_inputs Demo.model =
               Some [("count", Demo.count_spec); ("title", Demo.title_spec)])
    by reflexivity.
  assert (H3 : time_time (world Demo.st0) = (100%Z, Demo.w_read))
    by reflexivity.
  assert (H4 : validate_and_convert_inputs
                 Demo.model [("count", VStr "5")] [] Demo.w_read =
               (Return [("count", VInt 5)], Demo.callbacks, Demo.w_converted))
    by reflexivity.
  assert (H5 : run_model Demo.model [("count", VInt 5)] Demo.callbacks
                         Demo.w_converted =
               (Return (VList [VInt 5; VStr "done"]), Demo.callbacks,
                Demo.w_converted))
    by reflexivity.
  assert (H6 : time_time Demo.w_converted =
               (101%Z, Demo.mkWorld 102 (Demo.disk Demo.w_converted)))
    by reflexivity.
  destruct (successful_prediction Demo.model 3%Z Demo.req_ok Demo.st0
                                  H1 H2 H3 H4 H5 H6) as [Heq _].
  rewrite Heq. split; reflexivity.
Defined.

Lemma model_exception_propagates_witness :
  fst (handle_request Demo.model 3%Z Demo.req_boom Demo.st0) =
  Raise (mkExc Exception "predict failed") /\
  trace (snd (handle_request Demo.model 3%Z Demo.req_boom Demo.st0)) =
  [EvValidate; EvRunModel]
    ++ map cleanup_event (fst (drain Demo.callbacks Demo.w_converted)).
Proof.
  assert (H1 : collect_inputs Demo.req_boom = inr [("count", VStr "7")])
    by reflexivity.
  assert (H2 : predict_inputs Demo.model =
               Some [("count", Demo.count_spec); ("title", Demo.title_spec)])
    by reflexivity.
  assert (H3 : time_time (world Demo.st0) = (100%Z, Demo.w_read))
    by reflexivity.
  assert (H4 : validate_and_convert_inputs
                 Demo.model [("count", VStr "7")] [] Demo.w_read =
               (Return [("count", VInt 7)], Demo.callbacks, Demo.w_converted))
    by reflexivity.
  assert (H5 : run_model Demo.model [("count", VInt 7)] Demo.callbacks
                         Demo.w_converted =
               (Raise (mkExc Exception "predict failed"), Demo.callbacks,
                Demo.w_converted))
    by reflexivity.
  destruct (model_exception_propagates Demo.model 3%Z Demo.req_boom Demo.st0
                                       H1 H2 H3 H4 H5) as [Heq _].
  rewrite Heq. split; reflexivity.
Defined.

Lemma conversion_crash_propagates_witness :
  fst (@handle_request Z string Demo.World Demo.other_imports
                       Demo.model 3%Z Demo.req_ok Demo.st0) =
  Raise (mkExc TypeError "unhashable upload") /\
  trace (snd (@handle_request Z string Demo.World Demo.other_imports
                              Demo.model 3%Z Demo.req_ok Demo.st0)) =
  [EvValidate; EvCleanup (Demo.unlink "/tmp/a") None].
Proof.
  assert (H1 : collect_inputs Demo.req_ok = inr [("count", VStr "5")])
    by reflexivity.
  assert (H2 : predict_inputs Demo.model =
               Some [("count", Demo.count_spec); ("title", Demo.title_spec)])
    by reflexivity.
  assert (H3 : @time_time Z string Demo.World Demo.other_imports
                          (world Demo.st0) = (100%Z, Demo.w_read))
    by reflexivity.
  assert (H4 : @validate_and_convert_inputs
                 Z string Demo.World Demo.other_imports
                 Demo.model [("count", VStr "5")] [] Demo.w_read =
               (Raise (mkExc TypeError "unhashable upload"),
                [Demo.unlink "/tmp/a"],
                Demo.mkWorld 101 [("/tmp/a", "A"); ("/out/cat.png", "PNG")]))
    by reflexivity.
  destruct (@conversion_crash_propagates
              Z string Demo.World Demo.other_imports
              Demo.model 3%Z Demo.req_ok Demo.st0 _ _ _ _ _ _ _
              H1 H2 H3 H4 eq_refl) as [Heq _].
  rewrite Heq. split; reflexivity.
Defined.

Lemma raw_inputs_reach_model_witness :
  fst (@handle_request Z string Demo.World Demo.other_imports
                       Demo.bare_model 3%Z Demo.req_ok Demo.st0) =
  Return (mkResponse 200 "application/json"
            [("Content-Type", "application/json");
             ("X-Setup-Time", "3"); ("X-Run-Time", "1")]
            (BJson (JObj [("count", JStr "5")]))) /\
  trace (snd (@handle_request Z string Demo.World Demo.other_imports
                              Demo.bare_model 3%Z Demo.req_ok Demo.st0)) =
  [EvRunModel; EvCleanup (Demo.unlink "/tmp/out") None].
Proof.
  assert (H1 : collect_inputs Demo.req_ok = inr [("count", VStr "5")])
    by reflexivity.
  assert (H3 : @time_time Z string Demo.World Demo.other_imports
                          (world Demo.st0) = (100%Z, Demo.w_read))
    by reflexivity.
  assert (H4 : @run_model Z string Demo.World Demo.other_imports
                 Demo.bare_model [("count", VStr "5")] [] Demo.w_read =
               (Return (VDict [("count", VStr "5")]),
                [Demo.unlink "/tmp/out"],
                Demo.mkWorld 101 [("/tmp/out", "O"); ("/out/cat.png", "PNG")]))
    by reflexivity.
  destruct (@raw_inputs_reach_model
              Z string Demo.World Demo.other_imports
              Demo.bare_model 3%Z Demo.req_ok Demo.st0 _ _ _ _ _ _
              H1 eq_refl H3 H4) as [st' [runs [Hruns [Heq _]]]].
  split; [rewrite Heq, Hruns; reflexivity | reflexivity].
Defined.

Lemma demo_make_app :
  make_app Demo.model Demo.st0 =
  (Return (mkFlask 1%Z routes),
   mkState (Demo.mkWorld 102 [("/out/cat.png", "PNG")]) [] [] [EvSetup]).
Proof. reflexivity. Defined.

Lemma make_app_times_setup_witness :
  (exists app,
     make_app Demo.model Demo.st0 =
     (Return app,
      mkState (Demo.mkWorld 102 [("/out/cat.png", "PNG")]) [] [] [EvSetup]) /\
     app_setup_time app = 1%Z /\
     forall path request st resp st',
       path = "/predict" \/ path = "/infer" ->
       dispatch_request Demo.model app POST path request st
       = (Return resp, st') ->
       status_code resp = 200%Z ->
       Headers.get "X-Setup-Time" (headers resp) = Some "1") /\
  make_app Demo.broken_model Demo.st0 =
  (Raise (mkExc Exception "no weights"),
   mkState Demo.w_read [] [] [EvSetup]).
Proof.
  assert (H : time_time (world Demo.st0) = (100%Z, Demo.w_read))
    by reflexivity.
  split.
  - exact (make_app_times_setup Demo.model Demo.st0 H).
  - exact (make_app_times_setup Demo.broken_model Demo.st0 H).
Defined.

Lemma only_post_reaches_handler_witness :
  exists resp,
    dispatch_request Demo.model (mkFlask 1%Z routes) GET "/predict"
                     Demo.req_ok Demo.st0 = (Return resp, Demo.st0) /\
    status_code resp = 405%Z.
Proof.
  assert (Hpath : In "/predict" (map (fun rule => fst (fst rule)) routes))
    by (simpl; auto).
  destruct (@only_post_reaches_handler
              Z string Demo.World Demo.imports Demo.model
              Demo.st0 _ Demo.st0 _ GET "/predict" Demo.req_ok
              demo_make_app Hpath)
    as [[Hpost _] | [[_ [_ H]] | [[Hpost _] | [_ [[Hp | Hp] _]]]]];
    [discriminate | exact H | discriminate | discriminate | discriminate].
Defined.

Lemma ping_always_pong_witness :
  dispatch_request Demo.bare_model (mkFlask 1%Z routes) GET "/ping"
                   Demo.req_boom Demo.st0 =
  (Return (mkResponse 200 "text/html" [("Content-Type", "text/html")]
                      (BText "PONG")), Demo.st0).
Proof.
  assert (Happ :
            make_app Demo.bare_model Demo.st0 =
            (Return (mkFlask 1%Z routes),
             mkState (Demo.mkWorld 102 [("/out/cat.png", "PNG")])
                     [] [] [EvSetup]))
    by reflexivity.
  exact (ping_always_pong Demo.bare_model Demo.st0 Demo.st0 Demo.req_boom
                          Happ).
Defined.

Lemma help_always_answers_witness :
  exists j,
    dispatch_request Demo.model (mkFlask 1%Z routes) GET "/help"
                     Demo.req_ok Demo.st0 =
    (Return (mkResponse 200 "application/json"
               [("Content-Type", "application/json")] (BJson j)), Demo.st0) /\
    loads j = canon (help_document Demo.model) /\
    serializable (help_document Demo.model).
Proof.
  exact (help_always_answers Demo.model Demo.st0 Demo.st0 Demo.req_ok
                             demo_make_app).
Defined.

Lemma help_entry_shape_witness :
  exists j args arg,
    help Demo.model Demo.st0 =
      (Return (mkResponse 200 "application/json"
                 [("Content-Type", "application/json")] (BJson j)),
       Demo.st0) /\
    loads j = VDict [("arguments", VDict args)] /\
    Dict.get "count" args = Some (VDict arg) /\
    Dict.keys arg = ["help"; "max"; "min"; "type"] /\
    forallb (fun kv => is_text (snd kv)) arg = true.
Proof.
  exact (@help_entry_shape
           Z string Demo.World Demo.imports Demo.model Demo.st0
           _ "count" Demo.count_spec
           eq_refl demo_schema_keys_NoDup (or_introl eq_refl)).
Defined.
